(** * AI-Vision core (ai_vision_core.py): a model of the pipeline and of its
      failure and clean-up behaviour.

    The script records a question, transcribes it with a local whisper.cpp
    executable, captures the screen, runs OCR on it, asks the OpenAI API and
    shows the answer as a macOS notification.  Every collaborator of the
    script (environment, microphone, whisper, screencapture, tesseract, the
    remote API) is a field of a [World]; the script itself is a computation
    in a small state-and-exception monad over the file system and the trace
    of the calls it makes. *)

From Stdlib Require Import ZArith NArith List String Ascii Lia.
From stdpp Require Import base option list gmap.

Local Open Scope N_scope.

(** ** Python strings *)

(** A Python [str] is a sequence of Unicode code points. *)
Abbreviation str := (list N).

(** The code points of an ASCII literal of the source. *)
Definition py (s : string) : str :=
  List.map N_of_ascii (list_ascii_of_string s).

Definition dquote : str := [34].   (* the double quote *)
Definition newline : str := [10].

(** [str.isspace] on one character: the code points CPython treats as
    white space. *)
Definition isspace (c : N) : bool :=
  ((9 <=? c) && (c <=? 13)) || ((28 <=? c) && (c <=? 32))
  || (c =? 133) || (c =? 160) || (c =? 5760)
  || ((8192 <=? c) && (c <=? 8202))
  || (c =? 8232) || (c =? 8233) || (c =? 8239) || (c =? 8287) || (c =? 12288).

Fixpoint lstrip (s : str) : str :=
  match s with
  | c :: s' => if isspace c then lstrip s' else s
  | [] => []
  end.

Definition rstrip (s : str) : str := rev (lstrip (rev s)).

(** [s.strip()] *)
Definition strip (s : str) : str := rstrip (lstrip s).

(** [s.replace(old, new)] for one-character [old] and [new]. *)
Definition replace_char (old new : N) (s : str) : str :=
  List.map (fun c => if c =? old then new else c) s.

(** No character U+0000 occurs in the string. *)
Definition nul_free (s : str) : bool := forallb (fun c => negb (c =? 0)) s.

(** What text mode makes of the line ends when a file is read: a carriage
    return followed by a line feed, and a carriage return alone, each become
    one line feed. *)
Fixpoint universal_newlines (s : str) : str :=
  match s with
  | [] => []
  | c :: r =>
      if c =? 13 then
        10 :: match r with
              | 10 :: r' => universal_newlines r'
              | _ => universal_newlines r
              end
      else c :: universal_newlines r
  end.

(** Truth value of a string: [bool(s)]. *)
Definition truthy (s : str) : bool :=
  match s with [] => false | _ :: _ => true end.

(** Truth value of [os.getenv(...)], which is [None] or a string. *)
Definition truthy_opt (o : option str) : bool :=
  match o with None => false | Some s => truthy s end.

(** [needle in hay] *)
Definition contains (hay needle : str) : Prop :=
  exists pre post, hay = pre ++ needle ++ post.

Definition whitespace_only (s : str) : Prop := Forall (fun c => isspace c = true) s.

(** [os.path.join(a, b)] on POSIX for two components. *)
Definition os_path_join (a b : str) : str :=
  match b with
  | 47 :: _ => b
  | _ => match last a with
         | None => b
         | Some 47 => a ++ b
         | Some _ => a ++ py "/" ++ b
         end
  end.

(** ** Files, exceptions and the calls the script makes *)

(** A decoded picture, as [Image.open] hands it to the OCR engine. *)
Definition image : Type := list N.

(** What a file holds. *)
Inductive content : Type :=
| Empty                                   (* zero bytes, as NamedTemporaryFile leaves it *)
| Wav (samplerate : N) (samples : list Z) (* written by scipy.io.wavfile.write *)
| Text (s : str)                          (* plain text *)
| Picture (img : image).                  (* an image file PIL can decode *)

(** An exception raised by a library, with its class name and [str(e)]. *)
Record pyexc : Type := PyExc { exc_class : string; exc_str : str }.

(** What can unwind the script. *)
Inductive exn : Type :=
| Exc (e : pyexc)
| CalledProcessError (returncode : Z) (cmd : list str)
| SystemExit (code : Z).

(** The calls that leave the process.  The sampling temperature of the
    remote call, a float, is not recorded. *)
Inductive event : Type :=
| Print (line : str)
| Run (argv : list str)                                (* subprocess.run *)
| SdRec (frames samplerate channels : N)               (* sounddevice.rec *)
| Ocr (img : image)                                    (* pytesseract.image_to_string *)
| ChatCompletion (model system user : str) (max_tokens : N).
                                                       (* openai.chat.completions.create *)

(** The collaborators of one run.  The names the operating system hands
    out (the home directory, the temporary files) never hold the character
    U+0000. *)
Record World : Type := {
  (* os.getenv of OPENAI_API_KEY *)
  getenv_OPENAI_API_KEY : option str;
  (* os.path.expanduser of ~/AI-Vision *)
  expanduser_AI_Vision : str;
  expanduser_nul_free : nul_free expanduser_AI_Vision = true;
  (* the files that exist when the process starts *)
  disk : gmap str content;
  (* the names tempfile allocates, without their suffix *)
  tmp_wav_stem : str;
  tmp_wav_nul_free : nul_free tmp_wav_stem = true;
  tmp_png_stem : str;
  tmp_png_nul_free : nul_free tmp_png_stem = true;
  (* sd.rec followed by sd.wait: the samples, or the device error *)
  sd_rec : pyexc + list Z;
  (* whisper.cpp main: exit status, and the text it writes to <audio>.txt if any *)
  whisper_returncode : Z;
  whisper_txt : option str;
  (* screencapture: exit status, and the picture it writes if any *)
  screencapture_returncode : Z;
  screencapture_png : option image;
  (* tesseract on a picture: the text, or the error raised *)
  image_to_string : image -> pyexc + str;
  (* the remote call: the contents of the choices of the response (None for
     a message whose content is null), or the exception raised *)
  chat_completions_create : pyexc + list (option str)
}.

Record State : Type := mkState { fs : gmap str content; trace : list event }.

Inductive result (A : Type) : Type :=
| Ok (a : A)
| Raise (e : exn).
Arguments Ok {A} a.
Arguments Raise {A} e.

(** ** The monad of the script: state and exceptions *)

Definition M (A : Type) : Type := State -> result A * State.

#[export] Instance M_ret : MRet M := fun A (a : A) s => (Ok a, s).

#[export] Instance M_bind : MBind M := fun A B (k : A -> M B) (m : M A) s =>
  match m s with
  | (Ok a, s') => k a s'
  | (Raise e, s') => (Raise e, s')
  end.

Definition raise {A} (e : exn) : M A := fun s => (Raise e, s).

(** [try: body finally: fin]: [fin] runs however [body] ends; an exception of
    [fin] replaces the outcome of [body]. *)
Definition try_finally {A} (body : M A) (fin : M unit) : M A :=
  fun s => match body s with
           | (r, s') => match fin s' with
                        | (Ok _, s'') => (r, s'')
                        | (Raise e, s'') => (Raise e, s'')
                        end
           end.

Definition emit (ev : event) : M unit :=
  fun s => (Ok tt, mkState (fs s) (trace s ++ [ev])).

Definition modify_fs (f : gmap str content -> gmap str content) : M unit :=
  fun s => (Ok tt, mkState (f (fs s)) (trace s)).

Definition get_fs : M (gmap str content) := fun s => (Ok (fs s), s).

(** [print(line)]; standard output is taken to accept every string. *)
Definition print (line : str) : M unit := emit (Print line).

(** ** The operating system calls *)

Definition FileNotFoundError (path : str) : exn :=
  Exc (PyExc "FileNotFoundError" path).

(** [tempfile.NamedTemporaryFile(suffix=..., delete=False)]: a new empty file;
    leaving the [with] block closes it and, as [delete] is false, keeps it. *)
Definition NamedTemporaryFile (stem suffix : str) : M str :=
  modify_fs (fun d => <[stem ++ suffix := Empty]> d);;
  mret (stem ++ suffix).

(** [open(path, 'r').read()]: the text of the file, its line ends
    translated. *)
Definition read_text (path : str) : M str :=
  d ← get_fs;
  match d !! path with
  | None => raise (FileNotFoundError path)
  | Some Empty => mret []
  | Some (Text t) => mret (universal_newlines t)
  | Some (Wav _ _) | Some (Picture _) =>
      raise (Exc (PyExc "UnicodeDecodeError" path))
  end.

(** [os.remove(path)] *)
Definition os_remove (path : str) : M unit :=
  d ← get_fs;
  match d !! path with
  | None => raise (FileNotFoundError path)
  | Some _ => modify_fs (fun d => delete path d)
  end.

(** [os.path.exists(path)] *)
Definition os_path_exists (path : str) : M bool :=
  d ← get_fs;
  mret (match d !! path with Some _ => true | None => false end).

(** The [ValueError] of a command line word that holds U+0000. *)
Definition embedded_null_byte : exn :=
  Exc (PyExc "ValueError" (py "embedded null byte")).

(** [subprocess.run(argv)] for a process that exits with [returncode] after
    changing the files by [effect].  The trace records the call.  A word of
    [argv] that holds U+0000 makes the call raise before any process is
    started; with [check=True] a non-zero status raises, without it the
    status is handed back. *)
Definition subprocess_run (argv : list str) (check : bool)
    (returncode : Z) (effect : gmap str content -> gmap str content) : M Z :=
  emit (Run argv);;
  if forallb nul_free argv then
    modify_fs effect;;
    if check && negb (returncode =? 0)%Z
    then raise (CalledProcessError returncode argv)
    else mret returncode
  else raise embedded_null_byte.

(** [Image.open(path)] followed by the load the OCR call triggers. *)
Definition Image_open (path : str) : M image :=
  d ← get_fs;
  match d !! path with
  | None => raise (FileNotFoundError path)
  | Some (Picture img) => mret img
  | Some _ => raise (Exc (PyExc "UnidentifiedImageError" path))
  end.

(** ** The script *)

Section Script.

Variable w : World.

(** *** Configuration *)

Definition APP_DIR : str := expanduser_AI_Vision w.
Definition WHISPER_CPP_DIR : str := os_path_join APP_DIR (py "whisper.cpp").
Definition WHISPER_EXECUTABLE : str := os_path_join WHISPER_CPP_DIR (py "main").
Definition WHISPER_MODEL : str :=
  os_path_join WHISPER_CPP_DIR (py "models/ggml-base.en.bin").

Definition RECORDING_DURATION : N := 5.
Definition SAMPLE_RATE : N := 16000.

(** *** Notifications *)

(** The AppleScript source
    display notification <text> with title <title> subtitle <subtitle>,
    each argument between double quotes. *)
Definition display_notification (text title subtitle : str) : str :=
  py "display notification " ++ dquote ++ text ++ dquote
  ++ py " with title " ++ dquote ++ title ++ dquote
  ++ py " subtitle " ++ dquote ++ subtitle ++ dquote.

Definition osascript (source : str) : list str :=
  [py "osascript"; py "-e"; source].

(** The command [show_notification(title, text)] runs. *)
Definition notification (title text : str) : event :=
  Run (osascript (display_notification text (py "AI-Vision") title)).

(** osascript changes no file, and its exit status is discarded. *)
Definition show_notification (title text : str) : M unit :=
  subprocess_run
    (osascript (display_notification text (py "AI-Vision") title))
    false 0%Z id;;
  mret tt.

(** *** Stage 1: recording *)

Definition record_audio (file_path : str) : M unit :=
  print (py "Recording audio...");;
  show_notification (py "Listening...") (py "Please ask your question now.");;
  emit (SdRec (RECORDING_DURATION * SAMPLE_RATE) SAMPLE_RATE 1);;
  match sd_rec w with
  | inl e => raise (Exc e)
  | inr recording =>
      modify_fs (fun d => <[file_path := Wav SAMPLE_RATE recording]> d);;
      print (py "Audio saved to " ++ file_path)
  end.

(** *** Stage 2: transcription *)

(** What the whisper.cpp process does to the files when given [-otxt]. *)
Definition whisper_effect (file_path : str)
    (d : gmap str content) : gmap str content :=
  match whisper_txt w with
  | Some t => <[file_path ++ py ".txt" := Text t]> d
  | None => d
  end.

Definition transcribe_audio_local (file_path : str) : M str :=
  print (py "Transcribing audio locally...");;
  show_notification (py "Thinking...") (py "Transcribing your question...");;
  let command := [WHISPER_EXECUTABLE; py "-m"; WHISPER_MODEL; py "-f";
                  file_path; py "-nt"; py "-otxt"] in
  subprocess_run command true (whisper_returncode w) (whisper_effect file_path);;
  let transcription_path := file_path ++ py ".txt" in
  text ← read_text transcription_path;
  let transcribed_text := strip text in
  os_remove transcription_path;;
  print (py "Transcription: " ++ transcribed_text);;
  mret transcribed_text.

(** *** Stage 3: screen capture and OCR *)

(** What the screencapture process does to the files. *)
Definition screencapture_effect (path : str)
    (d : gmap str content) : gmap str content :=
  match screencapture_png w with
  | Some img => <[path := Picture img]> d
  | None => d
  end.

Definition capture_screen_and_ocr : M str :=
  print (py "Capturing screen and performing OCR...");;
  tmp_screenshot ← NamedTemporaryFile (tmp_png_stem w) (py ".png");
  subprocess_run [py "screencapture"; py "-C"; tmp_screenshot] false
    (screencapture_returncode w) (screencapture_effect tmp_screenshot);;
  image ← Image_open tmp_screenshot;
  emit (Ocr image);;
  match image_to_string w image with
  | inl e => raise (Exc e)
  | inr extracted_text =>
      print (py "OCR process complete.");;
      mret extracted_text
  end.

(** *** Stage 4: the remote query *)

Definition system_prompt : str :=
  py "You are a helpful assistant. Based on the provided text from the user's screen and their question, provide a clear and concise answer. If the screen text is empty or irrelevant, answer the user's question to the best of your ability.".

Definition no_text_detected : str := py "No text was detected on the screen.".

(** The f-string of [get_ai_assistance], with the indentation the source
    gives its lines. *)
Definition prompt (screen_text user_question : str) : str :=
  newline
  ++ py "    CONTEXT FROM SCREEN:" ++ newline
  ++ py "    ---" ++ newline
  ++ py "    "
  ++ (if truthy (strip screen_text) then screen_text else no_text_detected)
  ++ newline
  ++ py "    ---" ++ newline
  ++ py "    USER'S QUESTION: " ++ dquote ++ user_question ++ dquote ++ newline
  ++ py "    ".

Definition error_answer (e : str) : str :=
  py "An error occurred while contacting the AI: " ++ e.

(** The [except Exception as e] branch. *)
Definition on_api_error (e : str) : M str :=
  print (py "Error calling OpenAI: " ++ e);;
  mret (error_answer e).

Definition get_ai_assistance (screen_text user_question : str) : M str :=
  print (py "Contacting OpenAI API...");;
  show_notification (py "Consulting AI...")
    (py "Getting an answer based on your screen.");;
  emit (ChatCompletion (py "gpt-4o-mini") system_prompt
          (prompt screen_text user_question) 200);;
  match chat_completions_create w with
  | inl e => on_api_error (exc_str e)
  | inr [] =>                 (* response.choices[0] raises IndexError *)
      on_api_error (py "list index out of range")
  | inr (None :: _) =>        (* None.strip() raises AttributeError *)
      on_api_error (py "'NoneType' object has no attribute 'strip'")
  | inr (Some message_content :: _) => mret (strip message_content)
  end.

(** *** Orchestration *)

(** The [try] block of [main]. *)
Definition stages (tmp_audio : str) : M unit :=
  record_audio tmp_audio;;
  user_question ← transcribe_audio_local tmp_audio;
  if negb (truthy user_question) then
    show_notification (py "Error")
      (py "Could not understand audio. Please try again.")
  else
    screen_text ← capture_screen_and_ocr;
    ai_answer ← get_ai_assistance screen_text user_question;
    print (py "AI Answer: " ++ ai_answer);;
    show_notification (py "Here's your answer!")
      (replace_char 34 39 ai_answer).

(** The [finally] block of [main]. *)
Definition cleanup (tmp_audio : str) : M unit :=
  audio_exists ← os_path_exists tmp_audio;
  if (audio_exists : bool) then os_remove tmp_audio else mret tt.

Definition main : M unit :=
  tmp_audio ← NamedTemporaryFile (tmp_wav_stem w) (py ".wav");
  try_finally (stages tmp_audio) (cleanup tmp_audio).

(** The command the handler of the credential check runs. *)
Definition configuration_error_notification : event :=
  Run (osascript
         (display_notification
            (py "OPENAI_API_KEY environment variable not set.")
            (py "AI-Vision Error") (py "Configuration Issue"))).

(** The module-level credential check: the [ValueError] it raises is caught
    at once, reported and turned into [sys.exit(1)]. *)
Definition initialize_client : M unit :=
  if negb (truthy_opt (getenv_OPENAI_API_KEY w)) then
    let e := py "OPENAI_API_KEY environment variable not set." in
    subprocess_run
      (osascript (display_notification e (py "AI-Vision Error")
                    (py "Configuration Issue")))
      false 0%Z id;;
    raise (SystemExit 1)
  else mret tt.

(** Running the file as a script. *)
Definition script : M unit := initialize_client;; main.

Definition run : result unit * State := script (mkState (disk w) []).

(** *** The calls each stage adds to the trace *)

Definition recording_events : list event :=
  [Print (py "Recording audio...");
   notification (py "Listening...") (py "Please ask your question now.");
   SdRec (RECORDING_DURATION * SAMPLE_RATE) SAMPLE_RATE 1].

Definition whisper_command (p : str) : list str :=
  [WHISPER_EXECUTABLE; py "-m"; WHISPER_MODEL; py "-f"; p; py "-nt";
   py "-otxt"].

Definition transcribing_events (p : str) : list event :=
  [Print (py "Transcribing audio locally...");
   notification (py "Thinking...") (py "Transcribing your question...");
   Run (whisper_command p)].

Definition capturing_events (p : str) : list event :=
  [Print (py "Capturing screen and performing OCR...");
   Run [py "screencapture"; py "-C"; p]].

Definition querying_events (screen_text user_question : str) : list event :=
  [Print (py "Contacting OpenAI API...");
   notification (py "Consulting AI...")
     (py "Getting an answer based on your screen.");
   ChatCompletion (py "gpt-4o-mini") system_prompt
     (prompt screen_text user_question) 200].

(** What the [try] of [get_ai_assistance] makes of the outcome of the remote
    call: the answer, or the text of the exception it absorbs. *)
Definition completion : str + str :=
  match chat_completions_create w with
  | inl e => inl (exc_str e)
  | inr [] => inl (py "list index out of range")
  | inr (None :: _) => inl (py "'NoneType' object has no attribute 'strip'")
  | inr (Some message_content :: _) => inr (strip message_content)
  end.

Definition ai_answer_of (c : str + str) : str :=
  match c with
  | inl e => error_answer e
  | inr answer => answer
  end.

(** *** The ways a run can end *)

(** The state in which the transcription stage ends when the recording and
    whisper succeed and whisper writes [text]. *)
Definition transcribed (p : str) (recording : list Z) (text : str)
    (s : State) : State :=
  mkState
    (delete (p ++ py ".txt")
       (<[p ++ py ".txt" := Text text]>
          (<[p := Wav SAMPLE_RATE recording]> (fs s))))
    (trace s ++ recording_events ++ [Print (py "Audio saved to " ++ p)]
       ++ transcribing_events p
       ++ [Print (py "Transcription: " ++ strip (universal_newlines text))]).

(** The calls of the query stage and of the final notification, for the
    screen text [screen_text] and the question [question]. *)
Definition answering_events (screen_text question : str) : list event :=
  querying_events screen_text question
  ++ match completion with
     | inl e => [Print (py "Error calling OpenAI: " ++ e)]
     | inr _ => []
     end
  ++ [Print (py "AI Answer: " ++ ai_answer_of completion);
      notification (py "Here's your answer!")
        (replace_char 34 39 (ai_answer_of completion))].

(** How the call of the final notification ends: osascript is started
    unless the answer holds U+0000. *)
Definition shown (answer : str) : result unit :=
  if nul_free answer then Ok tt else Raise embedded_null_byte.

(** The ways the [try] block of [main] can end, each with the calls it has
    made by then: [p] is the audio file, [q] the stripped transcription. *)
Inductive stages_outcome (p : str) : result unit -> list event -> Prop :=
| device_error (e : pyexc) :
    stages_outcome p (Raise (Exc e)) recording_events
| transcription_error (e : exn) :
    (forall code, e <> SystemExit code) ->
    stages_outcome p (Raise e)
      (recording_events ++ [Print (py "Audio saved to " ++ p)]
         ++ transcribing_events p)
| no_speech :
    stages_outcome p (Ok tt)
      (recording_events ++ [Print (py "Audio saved to " ++ p)]
         ++ transcribing_events p
         ++ [Print (py "Transcription: ");
             notification (py "Error")
               (py "Could not understand audio. Please try again.")])
| capture_error (q : str) (e : pyexc) :
    stages_outcome p (Raise (Exc e))
      (recording_events ++ [Print (py "Audio saved to " ++ p)]
         ++ transcribing_events p
         ++ [Print (py "Transcription: " ++ q)]
         ++ capturing_events (tmp_png_stem w ++ py ".png"))
| ocr_error (q : str) (img : image) (e : pyexc) :
    stages_outcome p (Raise (Exc e))
      (recording_events ++ [Print (py "Audio saved to " ++ p)]
         ++ transcribing_events p
         ++ [Print (py "Transcription: " ++ q)]
         ++ capturing_events (tmp_png_stem w ++ py ".png")
         ++ [Ocr img])
| answered (q : str) (img : image) (screen_text : str) :
    stages_outcome p (shown (ai_answer_of completion))
      (recording_events ++ [Print (py "Audio saved to " ++ p)]
         ++ transcribing_events p
         ++ [Print (py "Transcription: " ++ q)]
         ++ capturing_events (tmp_png_stem w ++ py ".png")
         ++ [Ocr img; Print (py "OCR process complete.")]
         ++ answering_events screen_text q).

End Script.

(** The exit status of the interpreter. *)
Definition exit_status {A} (r : result A) : Z :=
  match r with
  | Ok _ => 0
  | Raise (SystemExit code) => code
  | Raise _ => 1
  end.

(** ** Observations on a trace *)

(** A call of osascript, of screencapture, of the OCR engine, of the remote
    API.  osascript and screencapture are run with three words on the command
    line, whisper with seven. *)
Definition is_notification (ev : event) : bool :=
  match ev with
  | Run [exe; _; _] => bool_decide (exe = py "osascript")
  | _ => false
  end.

Definition is_screencapture (ev : event) : bool :=
  match ev with
  | Run [exe; _; _] => bool_decide (exe = py "screencapture")
  | _ => false
  end.

Definition is_ocr (ev : event) : bool :=
  match ev with Ocr _ => true | _ => false end.

Definition is_query (ev : event) : bool :=
  match ev with ChatCompletion _ _ _ _ => true | _ => false end.

(** How many calls of a kind a trace holds. *)
Definition calls (kind : event -> bool) (t : list event) : nat :=
  length (List.filter kind t).

(** The last thing the run did was to show a notification. *)
Definition ends_with_notification (t : list event) : bool :=
  match last t with
  | Some ev => is_notification ev
  | None => false
  end.



(** ** Concrete runs *)

(** Scenario A of the specification: the question is understood, the screen
    shows an exception message, the API answers. *)
Definition scenario_A : World := {|
  getenv_OPENAI_API_KEY := Some (py "sk-test");
  expanduser_AI_Vision := py "/Users/me/AI-Vision";
  expanduser_nul_free := eq_refl;
  disk := ∅;
  tmp_wav_stem := py "/tmp/tmpq3x";
  tmp_wav_nul_free := eq_refl;
  tmp_png_stem := py "/tmp/tmpz81";
  tmp_png_nul_free := eq_refl;
  sd_rec := inr [0; 12; -7]%Z;
  whisper_returncode := 0;
  whisper_txt := Some (py " what does this error mean" ++ newline);
  screencapture_returncode := 0;
  screencapture_png := Some [137; 80; 78; 71];
  image_to_string := fun _ => inr (py "NullPointerException at line 42" ++ [10; 12]);
  chat_completions_create := inr [Some (py "A null reference was used.")]
|}.

Definition with_sd_rec (o : pyexc + list Z) (w : World) : World := {|
  getenv_OPENAI_API_KEY := getenv_OPENAI_API_KEY w;
  expanduser_AI_Vision := expanduser_AI_Vision w;
  expanduser_nul_free := expanduser_nul_free w;
  disk := disk w;
  tmp_wav_stem := tmp_wav_stem w;
  tmp_wav_nul_free := tmp_wav_nul_free w;
  tmp_png_stem := tmp_png_stem w;
  tmp_png_nul_free := tmp_png_nul_free w;
  sd_rec := o;
  whisper_returncode := whisper_returncode w;
  whisper_txt := whisper_txt w;
  screencapture_returncode := screencapture_returncode w;
  screencapture_png := screencapture_png w;
  image_to_string := image_to_string w;
  chat_completions_create := chat_completions_create w
|}.

Definition with_whisper_txt (o : option str) (w : World) : World := {|
  getenv_OPENAI_API_KEY := getenv_OPENAI_API_KEY w;
  expanduser_AI_Vision := expanduser_AI_Vision w;
  expanduser_nul_free := expanduser_nul_free w;
  disk := disk w;
  tmp_wav_stem := tmp_wav_stem w;
  tmp_wav_nul_free := tmp_wav_nul_free w;
  tmp_png_stem := tmp_png_stem w;
  tmp_png_nul_free := tmp_png_nul_free w;
  sd_rec := sd_rec w;
  whisper_returncode := whisper_returncode w;
  whisper_txt := o;
  screencapture_returncode := screencapture_returncode w;
  screencapture_png := screencapture_png w;
  image_to_string := image_to_string w;
  chat_completions_create := chat_completions_create w
|}.

Definition with_screencapture (rc : Z) (o : option image) (w : World) : World := {|
  getenv_OPENAI_API_KEY := getenv_OPENAI_API_KEY w;
  expanduser_AI_Vision := expanduser_AI_Vision w;
  expanduser_nul_free := expanduser_nul_free w;
  disk := disk w;
  tmp_wav_stem := tmp_wav_stem w;
  tmp_wav_nul_free := tmp_wav_nul_free w;
  tmp_png_stem := tmp_png_stem w;
  tmp_png_nul_free := tmp_png_nul_free w;
  sd_rec := sd_rec w;
  whisper_returncode := whisper_returncode w;
  whisper_txt := whisper_txt w;
  screencapture_returncode := rc;
  screencapture_png := o;
  image_to_string := image_to_string w;
  chat_completions_create := chat_completions_create w
|}.

Definition with_image_to_string (f : image -> pyexc + str) (w : World) : World := {|
  getenv_OPENAI_API_KEY := getenv_OPENAI_API_KEY w;
  expanduser_AI_Vision := expanduser_AI_Vision w;
  expanduser_nul_free := expanduser_nul_free w;
  disk := disk w;
  tmp_wav_stem := tmp_wav_stem w;
  tmp_wav_nul_free := tmp_wav_nul_free w;
  tmp_png_stem := tmp_png_stem w;
  tmp_png_nul_free := tmp_png_nul_free w;
  sd_rec := sd_rec w;
  whisper_returncode := whisper_returncode w;
  whisper_txt := whisper_txt w;
  screencapture_returncode := screencapture_returncode w;
  screencapture_png := screencapture_png w;
  image_to_string := f;
  chat_completions_create := chat_completions_create w
|}.

Definition with_chat (o : pyexc + list (option str)) (w : World) : World := {|
  getenv_OPENAI_API_KEY := getenv_OPENAI_API_KEY w;
  expanduser_AI_Vision := expanduser_AI_Vision w;
  expanduser_nul_free := expanduser_nul_free w;
  disk := disk w;
  tmp_wav_stem := tmp_wav_stem w;
  tmp_wav_nul_free := tmp_wav_nul_free w;
  tmp_png_stem := tmp_png_stem w;
  tmp_png_nul_free := tmp_png_nul_free w;
  sd_rec := sd_rec w;
  whisper_returncode := whisper_returncode w;
  whisper_txt := whisper_txt w;
  screencapture_returncode := screencapture_returncode w;
  screencapture_png := screencapture_png w;
  image_to_string := image_to_string w;
  chat_completions_create := o
|}.

Definition without_credential (w : World) : World := {|
  getenv_OPENAI_API_KEY := None;
  expanduser_AI_Vision := expanduser_AI_Vision w;
  expanduser_nul_free := expanduser_nul_free w;
  disk := disk w;
  tmp_wav_stem := tmp_wav_stem w;
  tmp_wav_nul_free := tmp_wav_nul_free w;
  tmp_png_stem := tmp_png_stem w;
  tmp_png_nul_free := tmp_png_nul_free w;
  sd_rec := sd_rec w;
  whisper_returncode := whisper_returncode w;
  whisper_txt := whisper_txt w;
  screencapture_returncode := screencapture_returncode w;
  screencapture_png := screencapture_png w;
  image_to_string := image_to_string w;
  chat_completions_create := chat_completions_create w
|}.

(** No input device. *)
Definition no_microphone : World :=
  with_sd_rec (inl (PyExc "PortAudioError" (py "Error querying device -1")))
    scenario_A.

(** Silence: whisper writes a blank line. *)
Definition scenario_B : World := with_whisper_txt (Some (py " " ++ newline)) scenario_A.

(** screencapture writes nothing and exits with status 1. *)
Definition scenario_C : World := with_screencapture 1 None scenario_A.

(** screencapture exits with status 1 after writing a picture. *)
Definition capture_status_1 : World :=
  with_screencapture 1 (Some [137; 80; 78; 71]) scenario_A.

(** tesseract is not installed. *)
Definition ocr_fails : World :=
  with_image_to_string
    (fun _ => inl (PyExc "TesseractNotFoundError"
                     (py "tesseract is not installed or it's not in your PATH.")))
    scenario_A.



(** Whisper writes two lines separated by a carriage return and a line
    feed. *)
Definition whisper_crlf : World :=
  with_whisper_txt (Some (py "what" ++ [13; 10] ++ py "now")) scenario_A.

(** ** Further observations *)

(** The collaborators a stage calls, in the order of the stages.  The
    whisper command is the only one the script runs with seven words. *)
Inductive collaborator : Type :=
| Microphone
| Whisper
| Screencapture
| Tesseract
| OpenAI.

Definition collaborator_of (ev : event) : option collaborator :=
  match ev with
  | SdRec _ _ _ => Some Microphone
  | Run [_; _; _; _; _; _; _] => Some Whisper
  | Run [exe; _; _] =>
      if bool_decide (exe = py "screencapture") then Some Screencapture
      else None
  | Ocr _ => Some Tesseract
  | ChatCompletion _ _ _ _ => Some OpenAI
  | _ => None
  end.

Definition collaborators_called (t : list event) : list collaborator :=
  omap collaborator_of t.

Definition pipeline : list collaborator :=
  [Microphone; Whisper; Screencapture; Tesseract; OpenAI].

(** The paths of the files a run creates: the audio file, the companion text
    file of whisper, the screenshot. *)
Definition audio_path (w : World) : str := tmp_wav_stem w ++ py ".wav".
Definition companion_path (w : World) : str := audio_path w ++ py ".txt".
Definition screenshot_path (w : World) : str := tmp_png_stem w ++ py ".png".

Definition temporary_paths (w : World) : list str :=
  [audio_path w; companion_path w; screenshot_path w].

(** A computation that leaves every file outside [paths] as it found it. *)
Definition preserves_outside {A} (paths : list str) (m : M A) : Prop :=
  forall s q, ~ In q paths -> fs (snd (m s)) !! q = fs s !! q.

(** The trimmed form of a text: nothing, or a text that neither begins nor
    ends with white space. *)
Definition trimmed (s : str) : Prop :=
  match s with
  | [] => True
  | c :: _ => isspace c = false
              /\ match last s with
                 | Some c' => isspace c' = false
                 | None => False
                 end
  end.

(** The API answers with blank content. *)
Definition blank_answer : World := with_chat (inr [Some (py "  " ++ newline)]) scenario_A.

(** The API answers with no choice at all. *)
Definition no_choice : World := with_chat (inr []) scenario_A.

(** Whisper exits with status 3 after writing a partial transcription. *)
Definition whisper_crashes : World := {|
  getenv_OPENAI_API_KEY := getenv_OPENAI_API_KEY scenario_A;
  expanduser_AI_Vision := expanduser_AI_Vision scenario_A;
  expanduser_nul_free := expanduser_nul_free scenario_A;
  disk := disk scenario_A;
  tmp_wav_stem := tmp_wav_stem scenario_A;
  tmp_wav_nul_free := tmp_wav_nul_free scenario_A;
  tmp_png_stem := tmp_png_stem scenario_A;
  tmp_png_nul_free := tmp_png_nul_free scenario_A;
  sd_rec := sd_rec scenario_A;
  whisper_returncode := 3;
  whisper_txt := Some (py "what");
  screencapture_returncode := screencapture_returncode scenario_A;
  screencapture_png := screencapture_png scenario_A;
  image_to_string := image_to_string scenario_A;
  chat_completions_create := chat_completions_create scenario_A
|}.

(** Whisper exits with status 0 and writes nothing. *)
Definition whisper_silent : World := with_whisper_txt None scenario_A.

(** Scenario A started in a home directory that holds a file of the user. *)
Definition scenario_A_with_notes : World := {|
  getenv_OPENAI_API_KEY := getenv_OPENAI_API_KEY scenario_A;
  expanduser_AI_Vision := expanduser_AI_Vision scenario_A;
  expanduser_nul_free := expanduser_nul_free scenario_A;
  disk := {[ py "/Users/me/notes.txt" := Text (py "remember the milk") ]};
  tmp_wav_stem := tmp_wav_stem scenario_A;
  tmp_wav_nul_free := tmp_wav_nul_free scenario_A;
  tmp_png_stem := tmp_png_stem scenario_A;
  tmp_png_nul_free := tmp_png_nul_free scenario_A;
  sd_rec := sd_rec scenario_A;
  whisper_returncode := whisper_returncode scenario_A;
  whisper_txt := whisper_txt scenario_A;
  screencapture_returncode := screencapture_returncode scenario_A;
  screencapture_png := screencapture_png scenario_A;
  image_to_string := image_to_string scenario_A;
  chat_completions_create := chat_completions_create scenario_A
|}.

(** ** Strings: stripping, replacing, containment *)

Lemma lstrip_whitespace_only (s : str) : whitespace_only s -> lstrip s = [].
Proof.
  induction 1 as [|c s Hc _ IH]; simpl.
  - reflexivity.
  - rewrite Hc. exact IH.
Qed.

Lemma strip_whitespace_only (s : str) : whitespace_only s -> strip s = [].
Proof.
  intros H. unfold strip, rstrip.
  rewrite (lstrip_whitespace_only s H). reflexivity.
Qed.

Lemma lstrip_nil_inv (s : str) : lstrip s = [] -> whitespace_only s.
Proof.
  induction s as [|c s IH]; simpl; intros H.
  - constructor.
  - destruct (isspace c) eqn:Hc; [|discriminate].
    constructor; [exact Hc | exact (IH H)].
Qed.

(** What [lstrip] keeps does not start with white space. *)
Lemma lstrip_head (s : str) :
  match lstrip s with
  | c :: _ => isspace c = false
  | [] => True
  end.
Proof.
  induction s as [|c s IH]; simpl; [exact I|].
  destruct (isspace c) eqn:Hc; [exact IH | exact Hc].
Qed.

Lemma strip_nil_inv (s : str) : strip s = [] -> whitespace_only s.
Proof.
  unfold strip, rstrip. intros H.
  apply lstrip_nil_inv.
  assert (Hrev : lstrip (rev (lstrip s)) = []).
  { rewrite <- (rev_involutive (lstrip (rev (lstrip s)))), H. reflexivity. }
  apply lstrip_nil_inv in Hrev.
  pose proof (lstrip_head s) as Hhd.
  destruct (lstrip s) as [|c r]; [reflexivity|].
  exfalso.
  assert (Hin : In c (rev (c :: r))) by (apply in_rev; rewrite rev_involutive; left; reflexivity).
  unfold whitespace_only in Hrev. rewrite List.Forall_forall in Hrev.
  specialize (Hrev c Hin). congruence.
Qed.

Lemma truthy_strip_false (s : str) :
  truthy (strip s) = false <-> whitespace_only s.
Proof.
  split.
  - intros H. apply strip_nil_inv. destruct (strip s); [reflexivity|discriminate].
  - intros H. rewrite (strip_whitespace_only s H). reflexivity.
Qed.



Lemma path_txt_ne (p : str) : p ++ py ".txt" <> p.
Proof.
  intros H. apply (f_equal (@length N)) in H.
  rewrite length_app in H. simpl in H. lia.
Qed.

Lemma contains_mid (pre x post : str) : contains (pre ++ x ++ post) x.
Proof. exists pre, post. reflexivity. Qed.

Lemma contains_app_r (a b x : str) : contains b x -> contains (a ++ b) x.
Proof.
  intros (pre & post & ->). exists (a ++ pre), post.
  rewrite <- app_assoc. reflexivity.
Qed.

Lemma contains_app_l (a b x : str) : contains a x -> contains (a ++ b) x.
Proof.
  intros (pre & post & ->). exists pre, (post ++ b).
  rewrite <- !app_assoc. reflexivity.
Qed.

Ltac find_contains :=
  repeat first [apply contains_mid | apply contains_app_r].

Lemma contains_In (hay : str) (c : N) : contains hay [c] -> In c hay.
Proof.
  intros (pre & post & ->). apply in_or_app. right. left. reflexivity.
Qed.

(** ** Strings: the character U+0000 and the line ends *)

Lemma nul_free_app (a b : str) : nul_free (a ++ b) = nul_free a && nul_free b.
Proof. apply forallb_app. Qed.

Lemma nul_free_replace_char (s : str) :
  nul_free (replace_char 34 39 s) = nul_free s.
Proof.
  induction s as [|c s IH]; simpl; [reflexivity|].
  rewrite IH. destruct (c =? 34) eqn:Hc; [|reflexivity].
  apply N.eqb_eq in Hc. subst c. reflexivity.
Qed.

Lemma os_path_join_cases (a b : str) :
  os_path_join a b = b
  \/ os_path_join a b = a ++ b
  \/ os_path_join a b = a ++ py "/" ++ b.
Proof.
  unfold os_path_join.
  repeat match goal with
         | |- context [match ?x with _ => _ end] => destruct x
         end; auto.
Qed.

Lemma nul_free_os_path_join (a b : str) :
  nul_free a = true -> nul_free b = true -> nul_free (os_path_join a b) = true.
Proof.
  intros Ha Hb.
  destruct (os_path_join_cases a b) as [-> | [-> | ->]];
    rewrite ?nul_free_app, ?Ha, ?Hb; reflexivity.
Qed.

Lemma whitespace_only_cons (c : N) (r : str) :
  whitespace_only (c :: r) <-> isspace c = true /\ whitespace_only r.
Proof.
  unfold whitespace_only. split.
  - intros H. inversion H; subst. split; assumption.
  - intros [Hc Hr]. constructor; assumption.
Qed.

Lemma universal_newlines_cr (r : str) :
  universal_newlines (13 :: r)
  = 10 :: match r with
          | 10 :: r' => universal_newlines r'
          | _ => universal_newlines r
          end.
Proof. reflexivity. Qed.

Lemma universal_newlines_other (c : N) (r : str) :
  c <> 13 -> universal_newlines (c :: r) = c :: universal_newlines r.
Proof.
  intros Hc. cbn [universal_newlines].
  destruct (c =? 13) eqn:E; [|reflexivity].
  apply N.eqb_eq in E. contradiction.
Qed.

Lemma whitespace_only_universal_newlines (s : str) :
  whitespace_only (universal_newlines s) <-> whitespace_only s.
Proof.
  assert (H : forall n (t : str), (length t <= n)%nat ->
            (whitespace_only (universal_newlines t) <-> whitespace_only t)).
  { induction n as [|n IH]; intros t Hlen.
    - destruct t; [reflexivity | simpl in Hlen; lia].
    - destruct t as [|c r]; [reflexivity|].
      simpl in Hlen.
      destruct (N.eq_dec c 13) as [-> | Hc].
      + rewrite universal_newlines_cr.
        destruct r as [|c' r'].
        * split; intros _; repeat constructor.
        * simpl in Hlen.
          destruct (N.eq_dec c' 10) as [-> | Hne].
          -- rewrite !whitespace_only_cons, (IH r') by lia.
             split; intros [_ Hws]; repeat split; try reflexivity; tauto.
          -- assert (Heq : match c' :: r' with
                           | 10 :: r'0 => universal_newlines r'0
                           | _ => universal_newlines (c' :: r')
                           end = universal_newlines (c' :: r')).
             { destruct c' as [|p]; [reflexivity|].
               repeat (destruct p as [p|p|]; try reflexivity).
               exfalso. apply Hne. reflexivity. }
             rewrite Heq, !whitespace_only_cons, (IH (c' :: r'))
               by (simpl; lia).
             rewrite whitespace_only_cons.
             split; intros [_ Hws]; split; try reflexivity; exact Hws.
      + rewrite (universal_newlines_other c r Hc), !whitespace_only_cons.
        rewrite (IH r) by lia. reflexivity. }
  exact (H (length s) s (le_n _)).
Qed.

(** The translation of the line ends does not change whether a text is
    blank. *)
Lemma truthy_strip_universal_newlines (s : str) :
  truthy (strip (universal_newlines s)) = truthy (strip s).
Proof.
  pose proof (truthy_strip_false s) as H1.
  pose proof (truthy_strip_false (universal_newlines s)) as H2.
  pose proof (whitespace_only_universal_newlines s) as H3.
  destruct (truthy (strip s)), (truthy (strip (universal_newlines s)));
    try reflexivity.
  - symmetry. apply H1, H3, H2. reflexivity.
  - apply H2, H3, H1. reflexivity.
Qed.

Lemma universal_newlines_id (s : str) :
  ~ In 13 s -> universal_newlines s = s.
Proof.
  induction s as [|c r IH]; intros Hin; [reflexivity|].
  cbn [universal_newlines].
  destruct (c =? 13) eqn:Hc.
  - apply N.eqb_eq in Hc. exfalso. apply Hin. left. auto.
  - rewrite IH; [reflexivity|]. intros H. apply Hin. right. exact H.
Qed.

(** ** The stages in direct style

    Each stage is a function of the world and of the state it starts in; the
    equations below give its outcome, the files it leaves and the calls it
    adds to the trace. *)

(** Unfolding of the monad that leaves the strings alone. *)
Ltac run_monad :=
  unfold show_notification, subprocess_run, NamedTemporaryFile, read_text,
    os_remove, os_path_exists, Image_open, on_api_error, print, emit,
    modify_fs, get_fs, raise, try_finally, mbind, mret, M_bind, M_ret, id;
  cbn [fs trace fst snd andb].

(** The test of a command line for U+0000, for a command line of literals or
    one a hypothesis speaks of. *)
Ltac nul_check :=
  match goal with
  | H : forallb nul_free ?argv = true |- context [forallb nul_free ?argv] =>
      rewrite H
  | |- context [forallb nul_free ?argv] =>
      let H := fresh in
      assert (H : forallb nul_free argv = true) by (vm_compute; reflexivity);
      rewrite H; clear H
  end.

Ltac run_script := run_monad; repeat (nul_check; run_monad).

Section Stages.

Variable w : World.

Lemma osascript_nul_free (text title subtitle : str) :
  forallb nul_free (osascript (display_notification text title subtitle))
  = nul_free text && nul_free title && nul_free subtitle.
Proof.
  unfold osascript, display_notification. cbn [forallb].
  rewrite !nul_free_app.
  change (nul_free (py "osascript")) with true.
  change (nul_free (py "-e")) with true.
  change (nul_free (py "display notification ")) with true.
  change (nul_free (py " with title ")) with true.
  change (nul_free (py " subtitle ")) with true.
  change (nul_free dquote) with true.
  destruct (nul_free text), (nul_free title), (nul_free subtitle); reflexivity.
Qed.

Lemma show_notification_eq (title text : str) (s : State) :
  show_notification title text s
  = (if nul_free text && nul_free title then Ok tt
     else Raise embedded_null_byte,
     mkState (fs s) (trace s ++ [notification title text])).
Proof.
  run_monad. rewrite osascript_nul_free.
  change (nul_free (py "AI-Vision")) with true.
  destruct (nul_free text), (nul_free title); reflexivity.
Qed.

Lemma show_notification_literal (title text : str) (s : State) :
  nul_free text = true ->
  nul_free title = true ->
  show_notification title text s
  = (Ok tt, mkState (fs s) (trace s ++ [notification title text])).
Proof. intros Ht Hti. rewrite show_notification_eq, Ht, Hti. reflexivity. Qed.

Lemma show_notification_answer (answer : str) (s : State) :
  show_notification (py "Here's your answer!") (replace_char 34 39 answer) s
  = (shown answer,
     mkState (fs s)
       (trace s ++ [notification (py "Here's your answer!")
                      (replace_char 34 39 answer)])).
Proof.
  rewrite show_notification_eq, nul_free_replace_char.
  change (nul_free (py "Here's your answer!")) with true.
  unfold shown. rewrite andb_true_r. reflexivity.
Qed.

Lemma record_audio_eq (p : str) (s : State) :
  record_audio w p s =
  match sd_rec w with
  | inl e => (Raise (Exc e), mkState (fs s) (trace s ++ recording_events))
  | inr recording =>
      (Ok tt, mkState (<[p := Wav SAMPLE_RATE recording]> (fs s))
                (trace s ++ recording_events
                   ++ [Print (py "Audio saved to " ++ p)]))
  end.
Proof.
  unfold record_audio, recording_events. run_script.
  destruct (sd_rec w); run_script; rewrite <- ?app_assoc; reflexivity.
Qed.

(** The command line of whisper holds no U+0000. *)
Lemma whisper_command_nul_free (p : str) :
  nul_free p = true -> forallb nul_free (whisper_command w p) = true.
Proof.
  intros Hp. unfold whisper_command, WHISPER_EXECUTABLE, WHISPER_MODEL,
    WHISPER_CPP_DIR, APP_DIR.
  cbn [forallb]. rewrite Hp.
  rewrite !nul_free_os_path_join;
    solve [reflexivity | apply expanduser_nul_free
          | apply nul_free_os_path_join;
            solve [reflexivity | apply expanduser_nul_free]].
Qed.

Lemma transcribe_audio_local_eq (p : str) (s : State) :
  nul_free p = true ->
  transcribe_audio_local w p s =
  let d := whisper_effect w p (fs s) in
  let t := trace s ++ transcribing_events w p in
  let done (text : str) :=
    (Ok (strip text),
     mkState (delete (p ++ py ".txt") d)
       (t ++ [Print (py "Transcription: " ++ strip text)])) in
  if negb (whisper_returncode w =? 0)%Z then
    (Raise (CalledProcessError (whisper_returncode w) (whisper_command w p)),
     mkState d t)
  else
    match d !! (p ++ py ".txt") with
    | None => (Raise (FileNotFoundError (p ++ py ".txt")), mkState d t)
    | Some Empty => done []
    | Some (Text text) => done (universal_newlines text)
    | Some (Wav _ _) | Some (Picture _) =>
        (Raise (Exc (PyExc "UnicodeDecodeError" (p ++ py ".txt"))), mkState d t)
    end.
Proof.
  intros Hp. pose proof (whisper_command_nul_free p Hp) as Hcmd.
  unfold whisper_command in Hcmd.
  unfold transcribe_audio_local, transcribing_events, whisper_command.
  run_script. cbn [andb].
  destruct (negb (whisper_returncode w =? 0)%Z);
    [run_script; rewrite <- ?app_assoc; reflexivity|].
  run_script.
  destruct (whisper_effect w p (fs s) !! (p ++ py ".txt")) as [[| | |]|] eqn:E;
    run_script; rewrite ?E; run_script; rewrite <- ?app_assoc; reflexivity.
Qed.

(** The names of the temporary files hold no U+0000. *)
Lemma audio_path_nul_free : nul_free (tmp_wav_stem w ++ py ".wav") = true.
Proof. rewrite nul_free_app, tmp_wav_nul_free. reflexivity. Qed.

Lemma screenshot_path_nul_free : nul_free (tmp_png_stem w ++ py ".png") = true.
Proof. rewrite nul_free_app, tmp_png_nul_free. reflexivity. Qed.

Lemma capture_screen_and_ocr_eq (s : State) :
  capture_screen_and_ocr w s =
  let p := tmp_png_stem w ++ py ".png" in
  let d := screencapture_effect w p (<[p := Empty]> (fs s)) in
  let t := trace s ++ capturing_events p in
  match d !! p with
  | None => (Raise (FileNotFoundError p), mkState d t)
  | Some (Picture img) =>
      match image_to_string w img with
      | inl e => (Raise (Exc e), mkState d (t ++ [Ocr img]))
      | inr extracted_text =>
          (Ok extracted_text,
           mkState d (t ++ [Ocr img; Print (py "OCR process complete.")]))
      end
  | Some _ => (Raise (Exc (PyExc "UnidentifiedImageError" p)), mkState d t)
  end.
Proof.
  assert (Hcmd : forallb nul_free
                   [py "screencapture"; py "-C"; tmp_png_stem w ++ py ".png"]
                 = true).
  { cbn [forallb]. rewrite screenshot_path_nul_free. reflexivity. }
  unfold capture_screen_and_ocr, capturing_events. run_script.
  destruct (screencapture_effect w (tmp_png_stem w ++ py ".png")
              (<[tmp_png_stem w ++ py ".png" := Empty]> (fs s))
            !! (tmp_png_stem w ++ py ".png")) as [[| | |img]|] eqn:E;
    run_script; rewrite <- ?app_assoc; try reflexivity.
  destruct (image_to_string w img); run_script; rewrite <- ?app_assoc;
    reflexivity.
Qed.

(** The file at the screenshot path once screencapture has run. *)
Lemma screenshot_after_capture (p : str) (d : gmap str content) :
  screencapture_effect w p (<[p := Empty]> d) !! p
  = Some (match screencapture_png w with
          | Some img => Picture img
          | None => Empty
          end).
Proof.
  unfold screencapture_effect.
  destruct (screencapture_png w); rewrite !lookup_insert_eq; reflexivity.
Qed.

Lemma get_ai_assistance_eq (screen_text user_question : str) (s : State) :
  get_ai_assistance w screen_text user_question s =
  (Ok (ai_answer_of (completion w)),
   mkState (fs s)
     (trace s ++ querying_events screen_text user_question
        ++ match completion w with
           | inl e => [Print (py "Error calling OpenAI: " ++ e)]
           | inr _ => []
           end)).
Proof.
  unfold get_ai_assistance, querying_events, completion. run_script.
  destruct (chat_completions_create w) as [e|[|[c|] l]];
    run_script; rewrite <- ?app_assoc; reflexivity.
Qed.

Lemma cleanup_eq (p : str) (s : State) :
  cleanup p s = (Ok tt, mkState (delete p (fs s)) (trace s)).
Proof.
  unfold cleanup. run_monad.
  destruct (fs s !! p) eqn:E; run_monad; rewrite ?E; [reflexivity|].
  rewrite (delete_id _ _ E). destruct s; reflexivity.
Qed.

(** [main] is its [try] block on a new empty audio file, followed by the
    removal of that file. *)
Lemma main_eq (s : State) :
  main w s =
  let p := tmp_wav_stem w ++ py ".wav" in
  let body := stages w p (mkState (<[p := Empty]> (fs s)) (trace s)) in
  (fst body, mkState (delete p (fs (snd body))) (trace (snd body))).
Proof.
  unfold main, NamedTemporaryFile, try_finally, modify_fs, mbind, mret,
    M_bind, M_ret.
  simpl.
  destruct (stages w _ _) as [r s']. rewrite cleanup_eq. reflexivity.
Qed.

Lemma run_eq :
  run w =
  if truthy_opt (getenv_OPENAI_API_KEY w) then main w (mkState (disk w) [])
  else (Raise (SystemExit 1),
        mkState (disk w) [configuration_error_notification]).
Proof.
  unfold run, script, initialize_client.
  destruct (truthy_opt (getenv_OPENAI_API_KEY w)); run_script; reflexivity.
Qed.

(** The audio file is gone when [main] ends, however it ends. *)
Lemma main_removes_audio (s : State) :
  fs (snd (main w s)) !! (tmp_wav_stem w ++ py ".wav") = None.
Proof. rewrite main_eq. simpl. apply lookup_delete_eq. Qed.

End Stages.

Section Reach.

Variable w : World.

Lemma stages_transcribed (p : str) (s : State) recording text :
  nul_free p = true ->
  sd_rec w = inr recording ->
  whisper_returncode w = 0%Z ->
  whisper_txt w = Some text ->
  stages w p s =
  let s2 := transcribed w p recording text s in
  if negb (truthy (strip (universal_newlines text))) then
    (Ok tt,
     mkState (fs s2)
       (trace s2 ++ [notification (py "Error")
                       (py "Could not understand audio. Please try again.")]))
  else
    (screen_text ← capture_screen_and_ocr w;
     ai_answer ← get_ai_assistance w screen_text
                   (strip (universal_newlines text));
     print (py "AI Answer: " ++ ai_answer);;
     show_notification (py "Here's your answer!")
       (replace_char 34 39 ai_answer)) s2.
Proof.
  intros Hp Hrec Hrc Htxt.
  unfold stages. unfold mbind at 1 2. unfold M_bind at 1 2.
  rewrite record_audio_eq, Hrec, (transcribe_audio_local_eq w p _ Hp), Hrc.
  cbn [negb Z.eqb fs trace].
  unfold whisper_effect at 1. rewrite Htxt, lookup_insert_eq.
  cbn [fs trace]. unfold transcribed, whisper_effect. rewrite Htxt.
  rewrite <- !app_assoc.
  destruct (negb (truthy (strip (universal_newlines text)))); [|reflexivity].
  rewrite show_notification_literal by reflexivity. reflexivity.
Qed.

(** The [try] block once a question has been understood: it ends in the
    capture stage, in the OCR call, or with the call of the final
    notification. *)
Lemma stages_understood (p : str) (s : State) recording text :
  nul_free p = true ->
  sd_rec w = inr recording ->
  whisper_returncode w = 0%Z ->
  whisper_txt w = Some text ->
  truthy (strip text) = true ->
  stages w p s =
  let s2 := transcribed w p recording text s in
  let png := tmp_png_stem w ++ py ".png" in
  let d := screencapture_effect w png (<[png := Empty]> (fs s2)) in
  let t := trace s2 ++ capturing_events png in
  match screencapture_png w with
  | None => (Raise (Exc (PyExc "UnidentifiedImageError" png)), mkState d t)
  | Some img =>
      match image_to_string w img with
      | inl e => (Raise (Exc e), mkState d (t ++ [Ocr img]))
      | inr screen_text =>
          (shown (ai_answer_of (completion w)),
           mkState d
             (t ++ [Ocr img; Print (py "OCR process complete.")]
                ++ answering_events w screen_text
                     (strip (universal_newlines text))))
      end
  end.
Proof.
  intros Hp Hrec Hrc Htxt Hq.
  rewrite <- truthy_strip_universal_newlines in Hq.
  rewrite (stages_transcribed p s recording text Hp Hrec Hrc Htxt).
  cbn zeta. rewrite Hq. cbn [negb].
  unfold mbind at 1. unfold M_bind at 1.
  rewrite capture_screen_and_ocr_eq. cbn zeta.
  rewrite screenshot_after_capture.
  destruct (screencapture_png w) as [img|]; [|reflexivity].
  destruct (image_to_string w img) as [e|screen_text]; [reflexivity|].
  unfold mbind at 1. unfold M_bind at 1.
  rewrite get_ai_assistance_eq.
  unfold mbind at 1. unfold M_bind at 1. unfold print, emit. cbn [fs trace].
  rewrite show_notification_answer. cbn [fs trace].
  unfold answering_events. rewrite <- !app_assoc. reflexivity.
Qed.

End Reach.

Section Outcomes.

Variable w : World.

(** What follows the transcription in the [try] block. *)
Lemma after_transcription_cases (p q : str) (d : gmap str content)
    (t0 : list event) :
  exists r d' t,
    (if negb (truthy q) then
       show_notification (py "Error")
         (py "Could not understand audio. Please try again.")
     else
       screen_text ← capture_screen_and_ocr w;
       ai_answer ← get_ai_assistance w screen_text q;
       print (py "AI Answer: " ++ ai_answer);;
       show_notification (py "Here's your answer!")
         (replace_char 34 39 ai_answer)) (mkState d t0)
    = (r, mkState d' (t0 ++ t))
    /\ stages_outcome w p r
         (recording_events ++ [Print (py "Audio saved to " ++ p)]
            ++ transcribing_events w p
            ++ [Print (py "Transcription: " ++ q)] ++ t).
Proof.
  destruct q as [|c q']; cbn [truthy negb].
  { rewrite show_notification_literal by reflexivity. eexists _, _, _.
    split; [reflexivity|]. apply no_speech. }
  unfold mbind at 1. unfold M_bind at 1.
  rewrite capture_screen_and_ocr_eq. cbn zeta.
  rewrite screenshot_after_capture. cbn [fs trace].
  destruct (screencapture_png w) as [img|].
  - destruct (image_to_string w img) as [e|screen_text].
    + eexists _, _, _. split; [rewrite <- !app_assoc; reflexivity|].
      apply (ocr_error w p (c :: q') img e).
    + unfold mbind at 1. unfold M_bind at 1.
      rewrite get_ai_assistance_eq.
      unfold mbind at 1. unfold M_bind at 1. unfold print, emit.
      cbn [fs trace]. rewrite show_notification_answer. cbn [fs trace].
      eexists _, _, _. split; [rewrite <- !app_assoc; reflexivity|].
      apply (answered w p (c :: q') img screen_text).
  - eexists _, _, _. split; [reflexivity|].
    apply (capture_error w p (c :: q')).
Qed.

Lemma stages_cases (p : str) (s : State) :
  nul_free p = true ->
  exists r d t,
    stages w p s = (r, mkState d (trace s ++ t)) /\ stages_outcome w p r t.
Proof.
  intros Hp.
  unfold stages. unfold mbind at 1 2. unfold M_bind at 1 2.
  rewrite record_audio_eq.
  destruct (sd_rec w) as [e|recording].
  { eexists _, _, _. split; [reflexivity | constructor]. }
  rewrite (transcribe_audio_local_eq w p _ Hp). cbn zeta. cbn [fs trace].
  destruct (negb (whisper_returncode w =? 0)%Z).
  { eexists _, _, _. split; [rewrite <- !app_assoc; reflexivity|].
    apply transcription_error. discriminate. }
  destruct (whisper_effect w p _ !! (p ++ py ".txt")) as [[| |text|]|];
    try (eexists _, _, _; split; [rewrite <- !app_assoc; reflexivity|];
         apply transcription_error; discriminate).
  - match goal with
    | |- context [ _ (mkState ?d ?t0) = _ ] =>
        destruct (after_transcription_cases p (strip []) d t0)
          as (r & d' & t & Heq & Ho)
    end.
    rewrite Heq. eexists _, _, _.
    split; [rewrite <- !app_assoc; reflexivity | exact Ho].
  - match goal with
    | |- context [ _ (mkState ?d ?t0) = _ ] =>
        destruct (after_transcription_cases p
                    (strip (universal_newlines text)) d t0)
          as (r & d' & t & Heq & Ho)
    end.
    rewrite Heq. eexists _, _, _.
    split; [rewrite <- !app_assoc; reflexivity | exact Ho].
Qed.

End Outcomes.

(** ** Whole runs *)

(** A run ends in the credential check or in one of the outcomes of the
    [try] block. *)
Lemma run_cases (w : World) :
  run w = (Raise (SystemExit 1),
           mkState (disk w) [configuration_error_notification])
  \/ exists r d t,
       run w = (r, mkState d t)
       /\ stages_outcome w (tmp_wav_stem w ++ py ".wav") r t.
Proof.
  rewrite run_eq.
  destruct (truthy_opt (getenv_OPENAI_API_KEY w)); [right | left; reflexivity].
  rewrite main_eq. cbn zeta. cbn [fs trace].
  destruct (stages_cases w (tmp_wav_stem w ++ py ".wav")
              (mkState (<[tmp_wav_stem w ++ py ".wav" := Empty]> (disk w)) [])
              (audio_path_nul_free w))
    as (r & d & t & Heq & Ho).
  rewrite Heq. cbn [fst snd fs trace app]. eauto.
Qed.

(** The audio file is gone at the end of every run that passed the
    credential check. *)
Lemma run_removes_audio (w : World) :
  truthy_opt (getenv_OPENAI_API_KEY w) = true ->
  fs (snd (run w)) !! (tmp_wav_stem w ++ py ".wav") = None.
Proof. intros Hkey. rewrite run_eq, Hkey. apply main_removes_audio. Qed.

Lemma wav_png_ne (a b : str) : a ++ py ".wav" <> b ++ py ".png".
Proof.
  intros H. apply (f_equal (@rev N)) in H.
  rewrite !rev_app_distr in H. simpl in H. discriminate H.
Qed.

(** X13. Every run that understands a question leaves the file of the
    screenshot on the disk, whether the capture, the OCR call or the query
    succeeds or not: nothing in the script removes it. *)
Lemma screenshot_never_removed (w : World) (recording : list Z) (text : str) :
  truthy_opt (getenv_OPENAI_API_KEY w) = true ->
  sd_rec w = inr recording ->
  whisper_returncode w = 0%Z ->
  whisper_txt w = Some text ->
  truthy (strip text) = true ->
  fs (snd (run w)) !! (tmp_png_stem w ++ py ".png")
  = Some (match screencapture_png w with
          | Some img => Picture img
          | None => Empty
          end).
Proof.
  intros Hkey Hrec Hrc Htxt Hq.
  rewrite run_eq, Hkey, main_eq. cbn zeta.
  rewrite (stages_understood w _ _ recording text (audio_path_nul_free w) Hrec Hrc Htxt Hq).
  cbn zeta.
  assert (Hkeep : forall d,
            delete (tmp_wav_stem w ++ py ".wav")
              (screencapture_effect w (tmp_png_stem w ++ py ".png")
                 (<[tmp_png_stem w ++ py ".png" := Empty]> d))
            !! (tmp_png_stem w ++ py ".png")
            = Some (match screencapture_png w with
                    | Some img => Picture img
                    | None => Empty
                    end)).
  { intros d. rewrite lookup_delete_ne by apply wav_png_ne.
    apply screenshot_after_capture. }
  destruct (screencapture_png w) as [img|] eqn:Hpng.
  - destruct (image_to_string w img); cbn [snd fs]; apply Hkeep.
  - cbn [snd fs]. apply Hkeep.
Qed.





(** ** The properties of the specification *)

(** C1 (the code leaks a file). In scenario A the run succeeds and removes
    the audio file and the companion text file, but the screenshot it
    created, which did not exist before, is still on the disk at exit. *)
Theorem C1_screenshot_left_behind :
  disk scenario_A !! py "/tmp/tmpz81.png" = None
  /\ exit_status (fst (run scenario_A)) = 0%Z
  /\ fs (snd (run scenario_A)) !! py "/tmp/tmpz81.png"
     = Some (Picture [137; 80; 78; 71])
  /\ fs (snd (run scenario_A)) !! py "/tmp/tmpq3x.wav" = None
  /\ fs (snd (run scenario_A)) !! py "/tmp/tmpq3x.wav.txt" = None.
Proof. vm_compute. repeat split; reflexivity. Qed.


(** C2 (the code reports no stage error). When the microphone cannot be
    opened the exception ends the run with status 1 and nothing tells the
    user: the last call of the run is the failed recording, and the only
    notification is the invitation to speak, shown before the failure. *)
Theorem C2_device_error_not_notified :
  exit_status (fst (run no_microphone)) = 1%Z
  /\ ends_with_notification (trace (snd (run no_microphone))) = false
  /\ List.filter is_notification (trace (snd (run no_microphone)))
     = [notification (py "Listening...") (py "Please ask your question now.")].
Proof. vm_compute. repeat split; reflexivity. Qed.

(** C3 (the code ignores the exit status of screencapture). When
    screencapture exits with status 1 after writing a picture, the status is
    not looked at: the capture stage returns the OCR text, the query is made
    and the run exits with status 0. *)
Theorem C3_exit_status_not_checked :
  screencapture_returncode capture_status_1 <> 0%Z
  /\ fst (capture_screen_and_ocr capture_status_1 (mkState ∅ []))
     = Ok (py "NullPointerException at line 42" ++ [10; 12])
  /\ calls is_query (trace (snd (run capture_status_1))) = 1%nat
  /\ exit_status (fst (run capture_status_1)) = 0%Z.
Proof.
  split; [discriminate|]. vm_compute. repeat split; reflexivity.
Qed.




(** C5. When the transcription is empty or holds white space only, the run
    stops after the transcription stage: screencapture, the OCR engine and the
    remote API are never called, the notification "Could not understand
    audio. Please try again." is the last thing shown, and the process exits
    with status 0. *)
Theorem C5_no_speech (w : World) (recording : list Z) (text : str) :
  truthy_opt (getenv_OPENAI_API_KEY w) = true ->
  sd_rec w = inr recording ->
  whisper_returncode w = 0%Z ->
  whisper_txt w = Some text ->
  whitespace_only text ->
  exit_status (fst (run w)) = 0%Z
  /\ calls is_screencapture (trace (snd (run w))) = 0%nat
  /\ calls is_ocr (trace (snd (run w))) = 0%nat
  /\ calls is_query (trace (snd (run w))) = 0%nat
  /\ last (trace (snd (run w)))
     = Some (notification (py "Error")
               (py "Could not understand audio. Please try again.")).
Proof.
  intros Hkey Hrec Hrc Htxt Hws.
  rewrite run_eq, Hkey, main_eq.
  cbn zeta.
  rewrite (stages_transcribed w _ _ recording text (audio_path_nul_free w)
             Hrec Hrc Htxt).
  cbn zeta.
  rewrite (strip_whitespace_only _
             (proj2 (whitespace_only_universal_newlines text) Hws)).
  repeat split; reflexivity.
Qed.

Lemma C5_no_speech_witness :
  (truthy_opt (getenv_OPENAI_API_KEY scenario_B) = true
   /\ sd_rec scenario_B = inr [0; 12; -7]%Z
   /\ whisper_returncode scenario_B = 0%Z
   /\ whisper_txt scenario_B = Some [32; 10]
   /\ whitespace_only [32; 10])
  /\ exit_status (fst (run scenario_B)) = 0%Z.
Proof.
  assert (Hws : whitespace_only [32; 10]) by (repeat constructor).
  split.
  - repeat split; try reflexivity. exact Hws.
  - apply (C5_no_speech scenario_B [0; 12; -7]%Z [32; 10]);
      solve [reflexivity | exact Hws].
Defined.




(** The claim C7 as it is worded fails for a screen text that is not empty
    but holds white space only, such as the form feed tesseract writes for a
    blank page: the prompt then carries the marker and not the screen text. *)
Lemma C7_counterexample :
  [12] <> ([] : list N)
  /\ ~ contains (prompt [12] (py "hi")) [12]
  /\ contains (prompt [12] (py "hi")) no_text_detected.
Proof.
  split; [discriminate|]. split.
  - intros Hc. apply contains_In in Hc.
    assert (Hb : existsb (N.eqb 12) (prompt [12] (py "hi")) = true).
    { apply existsb_exists. exists 12. split; [exact Hc | reflexivity]. }
    vm_compute in Hb. discriminate Hb.
  - unfold prompt. cbn [strip rstrip lstrip isspace truthy rev app].
    find_contains.
Qed.

(** C7 (amended). The prompt sent to the remote API always quotes the
    question. When the screen text is empty or holds white space only, the
    prompt is the one of the empty screen text and carries the marker "No
    text was detected on the screen."; otherwise it carries the screen text
    itself. *)
Theorem C7_prompt (w : World) (screen_text question : str) (s : State) :
  In (ChatCompletion (py "gpt-4o-mini") system_prompt
        (prompt screen_text question) 200)
     (trace (snd (get_ai_assistance w screen_text question s)))
  /\ contains (prompt screen_text question) question
  /\ (whitespace_only screen_text ->
      prompt screen_text question = prompt [] question
      /\ contains (prompt screen_text question) no_text_detected)
  /\ (~ whitespace_only screen_text ->
      contains (prompt screen_text question) screen_text).
Proof.
  split; [|split; [|split]].
  - rewrite get_ai_assistance_eq. cbn [snd trace].
    apply in_or_app. right. apply in_or_app. left.
    unfold querying_events. right. right. left. reflexivity.
  - unfold prompt. find_contains.
  - intros Hws. unfold prompt.
    rewrite (strip_whitespace_only _ Hws). split; [reflexivity|].
    cbn [truthy]. find_contains.
  - intros Hnws. unfold prompt.
    destruct (truthy (strip screen_text)) eqn:Ht.
    + find_contains.
    + exfalso. apply Hnws. apply truthy_strip_false. exact Ht.
Qed.

Lemma C7_prompt_witness :
  ~ whitespace_only (py "NullPointerException at line 42")
  /\ contains (prompt (py "NullPointerException at line 42")
                 (py "what does this error mean"))
       (py "NullPointerException at line 42")
  /\ contains (prompt (py "NullPointerException at line 42")
                 (py "what does this error mean"))
       (py "what does this error mean").
Proof.
  assert (Hn : ~ whitespace_only (py "NullPointerException at line 42")).
  { intros H. inversion H as [|c l Hc _]. vm_compute in Hc. discriminate Hc. }
  destruct (C7_prompt scenario_A (py "NullPointerException at line 42")
              (py "what does this error mean") (mkState ∅ []))
    as (_ & Hq & _ & Hs).
  split; [exact Hn|]. split; [exact (Hs Hn) | exact Hq].
Defined.

(** C8. When the API credential is absent from the environment, the
    configuration error is reported by exactly one notification, the process
    exits with status 1, and nothing else happens: no stage makes a call and
    no file is touched. *)
Theorem C8_missing_credential (w : World) :
  getenv_OPENAI_API_KEY w = None ->
  run w = (Raise (SystemExit 1),
           mkState (disk w) [configuration_error_notification])
  /\ exit_status (fst (run w)) = 1%Z
  /\ calls is_notification (trace (snd (run w))) = 1%nat
  /\ length (trace (snd (run w))) = 1%nat.
Proof.
  intros H. rewrite run_eq, H. simpl. repeat split; reflexivity.
Qed.

Lemma C8_missing_credential_witness :
  getenv_OPENAI_API_KEY (without_credential scenario_A) = None
  /\ exit_status (fst (run (without_credential scenario_A))) = 1%Z.
Proof.
  split; [reflexivity|].
  apply (C8_missing_credential (without_credential scenario_A)). reflexivity.
Defined.

(** The claim C9 as it is worded fails for a companion file whose text holds
    a carriage return: text mode translates the line ends, so what
    [transcribe_audio_local] returns is not the content of the file with its
    surrounding white space stripped. *)
Lemma C9_counterexample :
  whisper_txt whisper_crlf = Some (py "what" ++ [13; 10] ++ py "now")
  /\ fst (transcribe_audio_local whisper_crlf (py "/tmp/a.wav") (mkState ∅ []))
     = Ok (py "what" ++ [10] ++ py "now")
  /\ fst (transcribe_audio_local whisper_crlf (py "/tmp/a.wav") (mkState ∅ []))
     <> Ok (strip (py "what" ++ [13; 10] ++ py "now")).
Proof.
  split; [reflexivity|]. split; [vm_compute; reflexivity|].
  vm_compute. discriminate.
Qed.

(** C9 (amended). When whisper exits with status 0 and has written the
    companion file <audio_path>.txt, [transcribe_audio_local] returns the text
    of that file as text mode reads it (a carriage return followed by a line
    feed, and a lone carriage return, each read as one line feed) with the
    surrounding white space stripped, which is the content itself stripped
    when it holds no carriage return; it removes the companion file, and the
    audio file, like every other file, is left as it was.  The path is one the
    operating system accepts: it holds no character U+0000. *)
Theorem C9_transcription_frame (w : World) (p text : str) (audio : content)
    (s : State) :
  nul_free p = true ->
  whisper_returncode w = 0%Z ->
  whisper_txt w = Some text ->
  fs s !! p = Some audio ->
  fst (transcribe_audio_local w p s) = Ok (strip (universal_newlines text))
  /\ (~ In 13 text -> fst (transcribe_audio_local w p s) = Ok (strip text))
  /\ fs (snd (transcribe_audio_local w p s)) !! (p ++ py ".txt") = None
  /\ fs (snd (transcribe_audio_local w p s)) !! p = Some audio
  /\ forall q, q <> p ++ py ".txt" ->
       fs (snd (transcribe_audio_local w p s)) !! q = fs s !! q.
Proof.
  intros Hp Hrc Htxt Haudio.
  rewrite (transcribe_audio_local_eq w p s Hp), Hrc. cbn [negb Z.eqb].
  unfold whisper_effect. rewrite Htxt, lookup_insert_eq. cbn [fst snd fs].
  assert (Hframe : forall q, q <> p ++ py ".txt" ->
            delete (p ++ py ".txt") (<[p ++ py ".txt" := Text text]> (fs s)) !! q
            = fs s !! q).
  { intros q Hq. rewrite lookup_delete_ne, lookup_insert_ne; auto. }
  split; [reflexivity|]. split.
  { intros Hcr. rewrite (universal_newlines_id text Hcr). reflexivity. }
  split; [apply lookup_delete_eq|]. split.
  - rewrite Hframe; [exact Haudio|].
    intros H. exact (path_txt_ne p (eq_sym H)).
  - exact Hframe.
Qed.

Lemma C9_transcription_frame_witness :
  let s := mkState {[ py "/tmp/a.wav" := Wav 16000 [3; 4]%Z ]} [] in
  nul_free (py "/tmp/a.wav") = true
  /\ fs s !! py "/tmp/a.wav" = Some (Wav 16000 [3; 4]%Z)
  /\ fst (transcribe_audio_local scenario_A (py "/tmp/a.wav") s)
     = Ok (py "what does this error mean")
  /\ fs (snd (transcribe_audio_local scenario_A (py "/tmp/a.wav") s))
     !! py "/tmp/a.wav" = Some (Wav 16000 [3; 4]%Z).
Proof.
  intros s.
  assert (Ha : fs s !! py "/tmp/a.wav" = Some (Wav 16000 [3; 4]%Z))
    by (vm_compute; reflexivity).
  destruct (C9_transcription_frame scenario_A (py "/tmp/a.wav")
              (py " what does this error mean" ++ newline)
              (Wav 16000 [3; 4]%Z) s eq_refl eq_refl eq_refl Ha)
    as (Hret & _ & _ & Hkeep & _).
  split; [reflexivity|]. split; [exact Ha|].
  split; [exact Hret | exact Hkeep].
Defined.



(** ** Further properties of the script *)

(** *** Which files a run can touch *)

Section Frame.

Context {A B : Type}.
Variable paths : list str.

Lemma preserves_ret (a : A) : preserves_outside paths (mret a : M A).
Proof. intros s q _. reflexivity. Qed.

Lemma preserves_raise (e : exn) : preserves_outside paths (raise e : M A).
Proof. intros s q _. reflexivity. Qed.

Lemma preserves_bind (m : M A) (k : A -> M B) :
  preserves_outside paths m ->
  (forall a, preserves_outside paths (k a)) ->
  preserves_outside paths (m ≫= k).
Proof.
  intros Hm Hk s q Hq. unfold mbind, M_bind.
  specialize (Hm s q Hq).
  destruct (m s) as [[a|e] s']; cbn [snd] in *.
  - rewrite (Hk a s' q Hq). exact Hm.
  - exact Hm.
Qed.

Lemma preserves_try_finally (body : M A) (fin : M unit) :
  preserves_outside paths body ->
  preserves_outside paths fin ->
  preserves_outside paths (try_finally body fin).
Proof.
  intros Hb Hf s q Hq. unfold try_finally.
  specialize (Hb s q Hq).
  destruct (body s) as [r s']. cbn [snd] in Hb.
  specialize (Hf s' q Hq).
  destruct (fin s') as [[u|e] s'']; cbn [snd] in *; congruence.
Qed.

End Frame.

Lemma preserves_emit (paths : list str) (ev : event) :
  preserves_outside paths (emit ev).
Proof. intros s q _. reflexivity. Qed.

Lemma preserves_get_fs (paths : list str) : preserves_outside paths get_fs.
Proof. intros s q _. reflexivity. Qed.

Lemma preserves_modify_fs (paths : list str)
    (f : gmap str content -> gmap str content) :
  (forall d q, ~ In q paths -> f d !! q = d !! q) ->
  preserves_outside paths (modify_fs f).
Proof. intros Hf s q Hq. apply Hf, Hq. Qed.

Lemma insert_outside (paths : list str) (p : str) (c : content)
    (d : gmap str content) (q : str) :
  In p paths -> ~ In q paths -> <[p := c]> d !! q = d !! q.
Proof. intros Hp Hq. apply lookup_insert_ne. intros ->. exact (Hq Hp). Qed.

Lemma delete_outside (paths : list str) (p : str)
    (d : gmap str content) (q : str) :
  In p paths -> ~ In q paths -> delete p d !! q = d !! q.
Proof. intros Hp Hq. apply lookup_delete_ne. intros ->. exact (Hq Hp). Qed.

Lemma preserves_subprocess_run (paths : list str) (argv : list str)
    (check : bool) (returncode : Z)
    (effect : gmap str content -> gmap str content) :
  (forall d q, ~ In q paths -> effect d !! q = d !! q) ->
  preserves_outside paths (subprocess_run argv check returncode effect).
Proof.
  intros He. unfold subprocess_run.
  apply preserves_bind; [apply preserves_emit|intros _].
  destruct (forallb nul_free argv); [|apply preserves_raise].
  apply preserves_bind; [apply preserves_modify_fs, He|intros _].
  destruct (check && negb (returncode =? 0)%Z);
    [apply preserves_raise | apply preserves_ret].
Qed.

Lemma preserves_show_notification (paths : list str) (title text : str) :
  preserves_outside paths (show_notification title text).
Proof.
  unfold show_notification.
  apply preserves_bind; [|intros _; apply preserves_ret].
  apply preserves_subprocess_run. reflexivity.
Qed.

Lemma preserves_os_remove (paths : list str) (p : str) :
  In p paths -> preserves_outside paths (os_remove p).
Proof.
  intros Hp. unfold os_remove.
  apply preserves_bind; [apply preserves_get_fs|intros d].
  destruct (d !! p); [|apply preserves_raise].
  apply preserves_modify_fs. intros d' q. apply delete_outside, Hp.
Qed.

Lemma preserves_NamedTemporaryFile (paths : list str) (stem suffix : str) :
  In (stem ++ suffix) paths ->
  preserves_outside paths (NamedTemporaryFile stem suffix).
Proof.
  intros Hp. unfold NamedTemporaryFile.
  apply preserves_bind; [|intros _; apply preserves_ret].
  apply preserves_modify_fs. intros d q. apply insert_outside, Hp.
Qed.

Section FrameStages.

Variable w : World.
Variable paths : list str.

Lemma preserves_record_audio (p : str) :
  In p paths -> preserves_outside paths (record_audio w p).
Proof.
  intros Hp. unfold record_audio.
  apply preserves_bind; [apply preserves_emit|intros _].
  apply preserves_bind; [apply preserves_show_notification|intros _].
  apply preserves_bind; [apply preserves_emit|intros _].
  destruct (sd_rec w); [apply preserves_raise|].
  apply preserves_bind; [|intros _; apply preserves_emit].
  apply preserves_modify_fs. intros d q. apply insert_outside, Hp.
Qed.

Lemma preserves_transcribe_audio_local (p : str) :
  In (p ++ py ".txt") paths ->
  preserves_outside paths (transcribe_audio_local w p).
Proof.
  intros Hp. unfold transcribe_audio_local.
  apply preserves_bind; [apply preserves_emit|intros _].
  apply preserves_bind; [apply preserves_show_notification|intros _].
  apply preserves_bind.
  { apply preserves_subprocess_run. intros d q Hq. unfold whisper_effect.
    destruct (whisper_txt w); [exact (insert_outside paths _ _ d q Hp Hq) | reflexivity]. }
  intros _.
  apply preserves_bind.
  { unfold read_text. apply preserves_bind; [apply preserves_get_fs|intros d].
    destruct (d !! (p ++ py ".txt")) as [[| | |]|];
      first [apply preserves_ret | apply preserves_raise]. }
  intros text.
  apply preserves_bind; [apply preserves_os_remove, Hp|intros _].
  apply preserves_bind; [apply preserves_emit|intros _].
  apply preserves_ret.
Qed.

Lemma preserves_capture_screen_and_ocr :
  In (tmp_png_stem w ++ py ".png") paths ->
  preserves_outside paths (capture_screen_and_ocr w).
Proof.
  intros Hp s q Hq. rewrite capture_screen_and_ocr_eq. cbn zeta.
  assert (Hd : screencapture_effect w (tmp_png_stem w ++ py ".png")
                 (<[tmp_png_stem w ++ py ".png" := Empty]> (fs s)) !! q
               = fs s !! q).
  { unfold screencapture_effect.
    destruct (screencapture_png w);
      rewrite ?(insert_outside paths _ _ _ q Hp Hq); reflexivity. }
  destruct (screencapture_effect w _ _ !! (tmp_png_stem w ++ py ".png"))
    as [[| | |img]|]; try exact Hd.
  destruct (image_to_string w img); exact Hd.
Qed.

Lemma preserves_get_ai_assistance (screen_text user_question : str) :
  preserves_outside paths (get_ai_assistance w screen_text user_question).
Proof.
  intros s q _. rewrite get_ai_assistance_eq. reflexivity.
Qed.

Lemma preserves_stages (p : str) :
  In p paths ->
  In (p ++ py ".txt") paths ->
  In (tmp_png_stem w ++ py ".png") paths ->
  preserves_outside paths (stages w p).
Proof.
  intros Hp Htxt Hpng. unfold stages.
  apply preserves_bind; [apply preserves_record_audio, Hp|intros _].
  apply preserves_bind;
    [apply preserves_transcribe_audio_local, Htxt|intros user_question].
  destruct (negb (truthy user_question));
    [apply preserves_show_notification|].
  apply preserves_bind;
    [apply preserves_capture_screen_and_ocr, Hpng|intros screen_text].
  apply preserves_bind; [apply preserves_get_ai_assistance|intros ai_answer].
  apply preserves_bind; [apply preserves_emit|intros _].
  apply preserves_show_notification.
Qed.

Lemma preserves_main :
  In (tmp_wav_stem w ++ py ".wav") paths ->
  In ((tmp_wav_stem w ++ py ".wav") ++ py ".txt") paths ->
  In (tmp_png_stem w ++ py ".png") paths ->
  preserves_outside paths (main w).
Proof.
  intros Hp Htxt Hpng s q Hq. rewrite main_eq. cbn zeta. cbn [snd fs].
  rewrite (delete_outside paths _ _ q Hp Hq).
  rewrite (preserves_stages _ Hp Htxt Hpng _ q Hq). cbn [fs].
  apply (insert_outside paths _ _ _ q Hp Hq).
Qed.

End FrameStages.

(** X1. A run never touches a file other than the three it creates: every
    path that is not the audio file, the companion text file or the
    screenshot holds at exit what it held at the start, however the run
    ends. *)
Theorem files_outside_temporaries_untouched (w : World) (q : str) :
  ~ In q (temporary_paths w) ->
  fs (snd (run w)) !! q = disk w !! q.
Proof.
  intros Hq. rewrite run_eq.
  destruct (truthy_opt (getenv_OPENAI_API_KEY w)); [|reflexivity].
  apply (preserves_main w (temporary_paths w)); try exact Hq;
    unfold temporary_paths, audio_path, companion_path, screenshot_path;
    cbn [In]; auto.
Qed.

Lemma files_outside_temporaries_untouched_witness :
  ~ In (py "/Users/me/notes.txt") (temporary_paths scenario_A_with_notes)
  /\ fs (snd (run scenario_A_with_notes)) !! py "/Users/me/notes.txt"
     = Some (Text (py "remember the milk")).
Proof.
  assert (Hq : ~ In (py "/Users/me/notes.txt")
                 (temporary_paths scenario_A_with_notes)).
  { vm_compute. intros [H|[H|[H|[]]]]; discriminate H. }
  split; [exact Hq|].
  rewrite (files_outside_temporaries_untouched scenario_A_with_notes _ Hq).
  vm_compute. reflexivity.
Defined.

(** X2. The audio file does not survive a run that passed the credential
    check, whichever way the run ends. *)
Theorem audio_file_removed_on_every_path (w : World) :
  truthy_opt (getenv_OPENAI_API_KEY w) = true ->
  fs (snd (run w)) !! audio_path w = None.
Proof. intros Hkey. exact (run_removes_audio w Hkey). Qed.

Lemma audio_file_removed_on_every_path_witness :
  truthy_opt (getenv_OPENAI_API_KEY ocr_fails) = true
  /\ exit_status (fst (run ocr_fails)) = 1%Z
  /\ fs (snd (run ocr_fails)) !! py "/tmp/tmpq3x.wav" = None.
Proof.
  split; [reflexivity|]. split; [vm_compute; reflexivity|].
  exact (audio_file_removed_on_every_path ocr_fails eq_refl).
Defined.

(** X3. In every run the collaborators are called in the order of the
    pipeline, each at most once and none skipped: the calls made are an
    initial part of microphone, whisper, screencapture, tesseract, OpenAI. *)
Theorem collaborators_in_pipeline_order (w : World) :
  exists n, collaborators_called (trace (snd (run w))) = firstn n pipeline.
Proof.
  destruct (run_cases w) as [Heq | (r & d & t & Heq & Ho)]; rewrite Heq;
    cbn [snd trace].
  { exists 0%nat. reflexivity. }
  destruct Ho as [e | e He | | q e | q img e | q img screen_text].
  - exists 1%nat. reflexivity.
  - exists 2%nat. reflexivity.
  - exists 2%nat. reflexivity.
  - exists 3%nat. reflexivity.
  - exists 4%nat. reflexivity.
  - exists 5%nat. unfold answering_events.
    destruct (completion w); reflexivity.
Qed.

(** The [try] block when a stage before the capture fails. *)
Lemma stages_device_error (w : World) (p : str) (s : State) (e : pyexc) :
  sd_rec w = inl e ->
  stages w p s = (Raise (Exc e), mkState (fs s) (trace s ++ recording_events)).
Proof.
  intros Hrec. unfold stages. unfold mbind at 1. unfold M_bind at 1.
  rewrite record_audio_eq, Hrec. reflexivity.
Qed.

Lemma stages_whisper_status (w : World) (p : str) (s : State)
    (recording : list Z) :
  nul_free p = true ->
  sd_rec w = inr recording ->
  whisper_returncode w <> 0%Z ->
  stages w p s
  = (Raise (CalledProcessError (whisper_returncode w) (whisper_command w p)),
     mkState
       (whisper_effect w p (<[p := Wav SAMPLE_RATE recording]> (fs s)))
       (trace s ++ recording_events ++ [Print (py "Audio saved to " ++ p)]
          ++ transcribing_events w p)).
Proof.
  intros Hp Hrec Hrc.
  assert (Hb : negb (whisper_returncode w =? 0)%Z = true).
  { apply negb_true_iff, Z.eqb_neq, Hrc. }
  unfold stages. unfold mbind at 1 2. unfold M_bind at 1 2.
  rewrite record_audio_eq, Hrec, (transcribe_audio_local_eq w p _ Hp), Hb.
  cbn [fs trace]. rewrite <- !app_assoc. reflexivity.
Qed.

Lemma stages_missing_transcript (w : World) (p : str) (s : State)
    (recording : list Z) :
  nul_free p = true ->
  sd_rec w = inr recording ->
  whisper_returncode w = 0%Z ->
  whisper_txt w = None ->
  fs s !! (p ++ py ".txt") = None ->
  stages w p s
  = (Raise (FileNotFoundError (p ++ py ".txt")),
     mkState (<[p := Wav SAMPLE_RATE recording]> (fs s))
       (trace s ++ recording_events ++ [Print (py "Audio saved to " ++ p)]
          ++ transcribing_events w p)).
Proof.
  intros Hp Hrec Hrc Htxt Hnone.
  unfold stages. unfold mbind at 1 2. unfold M_bind at 1 2.
  rewrite record_audio_eq, Hrec, (transcribe_audio_local_eq w p _ Hp), Hrc.
  cbn [negb Z.eqb fs trace]. unfold whisper_effect. rewrite Htxt.
  rewrite lookup_insert_ne by (intros H; exact (path_txt_ne _ (eq_sym H))).
  rewrite Hnone. rewrite <- !app_assoc. reflexivity.
Qed.

(** X4. When the microphone cannot be opened the run stops there: the
    exception of the device ends the process with status 1, no other
    collaborator is called, and the empty audio file is removed, so that the
    disk is as before apart from the path of the audio file. *)
Theorem device_failure_aborts (w : World) (e : pyexc) :
  truthy_opt (getenv_OPENAI_API_KEY w) = true ->
  sd_rec w = inl e ->
  fst (run w) = Raise (Exc e)
  /\ exit_status (fst (run w)) = 1%Z
  /\ collaborators_called (trace (snd (run w))) = [Microphone]
  /\ fs (snd (run w)) = delete (audio_path w) (disk w).
Proof.
  intros Hkey Hrec.
  assert (Hrun : run w
                 = (Raise (Exc e),
                    mkState (delete (audio_path w) (disk w)) recording_events)).
  { rewrite run_eq, Hkey, main_eq. cbn zeta.
    rewrite (stages_device_error w _ _ e Hrec). cbn [fst snd fs trace app].
    unfold audio_path. rewrite delete_insert_eq. reflexivity. }
  rewrite Hrun. repeat split; reflexivity.
Qed.

Lemma device_failure_aborts_witness :
  sd_rec no_microphone
  = inl (PyExc "PortAudioError" (py "Error querying device -1"))
  /\ exit_status (fst (run no_microphone)) = 1%Z
  /\ fs (snd (run no_microphone)) = delete (audio_path no_microphone) ∅.
Proof.
  destruct (device_failure_aborts no_microphone
              (PyExc "PortAudioError" (py "Error querying device -1"))
              eq_refl eq_refl) as (_ & Hexit & _ & Hfs).
  split; [reflexivity|]. split; [exact Hexit | exact Hfs].
Defined.

(** X5. When whisper exits with a non-zero status the run stops with
    [CalledProcessError]: the companion file is not read and not removed (it
    stays if whisper wrote one), screencapture, tesseract and OpenAI are not
    called, the audio file is removed and the process exits with status 1. *)
Theorem transcription_failure_aborts (w : World) (recording : list Z) :
  truthy_opt (getenv_OPENAI_API_KEY w) = true ->
  sd_rec w = inr recording ->
  whisper_returncode w <> 0%Z ->
  fst (run w)
  = Raise (CalledProcessError (whisper_returncode w)
             (whisper_command w (audio_path w)))
  /\ exit_status (fst (run w)) = 1%Z
  /\ collaborators_called (trace (snd (run w))) = [Microphone; Whisper]
  /\ fs (snd (run w)) !! audio_path w = None
  /\ fs (snd (run w)) !! companion_path w
     = match whisper_txt w with
       | Some text => Some (Text text)
       | None => disk w !! companion_path w
       end.
Proof.
  intros Hkey Hrec Hrc.
  assert (Hrun : run w
                 = (Raise (CalledProcessError (whisper_returncode w)
                             (whisper_command w (audio_path w))),
                    mkState
                      (delete (audio_path w)
                         (whisper_effect w (audio_path w)
                            (<[audio_path w := Wav SAMPLE_RATE recording]>
                               (<[audio_path w := Empty]> (disk w)))))
                      (recording_events
                         ++ [Print (py "Audio saved to " ++ audio_path w)]
                         ++ transcribing_events w (audio_path w)))).
  { rewrite run_eq, Hkey, main_eq. cbn zeta.
    rewrite (stages_whisper_status w _ _ recording (audio_path_nul_free w)
               Hrec Hrc).
    reflexivity. }
  rewrite Hrun. cbn [fst snd fs trace]. unfold companion_path.
  split; [reflexivity|]. split; [reflexivity|]. split; [reflexivity|].
  split; [apply lookup_delete_eq|].
  rewrite lookup_delete_ne by (intros H; exact (path_txt_ne _ (eq_sym H))).
  unfold whisper_effect.
  destruct (whisper_txt w); [apply lookup_insert_eq|].
  rewrite !lookup_insert_ne
    by (intros H; exact (path_txt_ne _ (eq_sym H))).
  reflexivity.
Qed.

Lemma transcription_failure_aborts_witness :
  whisper_returncode whisper_crashes <> 0%Z
  /\ exit_status (fst (run whisper_crashes)) = 1%Z
  /\ fs (snd (run whisper_crashes)) !! py "/tmp/tmpq3x.wav" = None
  /\ fs (snd (run whisper_crashes)) !! py "/tmp/tmpq3x.wav.txt"
     = Some (Text (py "what")).
Proof.
  assert (Hrc : whisper_returncode whisper_crashes <> 0%Z) by discriminate.
  destruct (transcription_failure_aborts whisper_crashes [0; 12; -7]%Z
              eq_refl eq_refl Hrc) as (_ & Hexit & _ & Ha & Hc).
  split; [exact Hrc|]. split; [exact Hexit|]. split; [exact Ha | exact Hc].
Defined.

(** X6. When whisper exits with status 0 but has written no companion file
    and none was there, reading it raises [FileNotFoundError]: the run stops
    with status 1 before the capture stage, and the disk is as before apart
    from the path of the audio file. *)
Theorem missing_transcript_aborts (w : World) (recording : list Z) :
  truthy_opt (getenv_OPENAI_API_KEY w) = true ->
  sd_rec w = inr recording ->
  whisper_returncode w = 0%Z ->
  whisper_txt w = None ->
  disk w !! companion_path w = None ->
  fst (run w) = Raise (FileNotFoundError (companion_path w))
  /\ exit_status (fst (run w)) = 1%Z
  /\ collaborators_called (trace (snd (run w))) = [Microphone; Whisper]
  /\ fs (snd (run w)) = delete (audio_path w) (disk w).
Proof.
  intros Hkey Hrec Hrc Htxt Hdisk.
  assert (Hrun : run w
                 = (Raise (FileNotFoundError (companion_path w)),
                    mkState (delete (audio_path w) (disk w))
                      (recording_events
                         ++ [Print (py "Audio saved to " ++ audio_path w)]
                         ++ transcribing_events w (audio_path w)))).
  { rewrite run_eq, Hkey, main_eq. cbn zeta.
    unfold audio_path, companion_path in *.
    rewrite (stages_missing_transcript w _ _ recording
               (audio_path_nul_free w) Hrec Hrc Htxt).
    - cbn [fst snd fs trace app]. rewrite !delete_insert_eq. reflexivity.
    - cbn [fs].
      rewrite lookup_insert_ne
        by (intros H; exact (path_txt_ne _ (eq_sym H))).
      exact Hdisk. }
  rewrite Hrun. repeat split; reflexivity.
Qed.

Lemma missing_transcript_aborts_witness :
  whisper_txt whisper_silent = None
  /\ disk whisper_silent !! companion_path whisper_silent = None
  /\ fst (run whisper_silent)
     = Raise (FileNotFoundError (py "/tmp/tmpq3x.wav.txt"))
  /\ exit_status (fst (run whisper_silent)) = 1%Z.
Proof.
  assert (Hd : disk whisper_silent !! companion_path whisper_silent = None)
    by (vm_compute; reflexivity).
  destruct (missing_transcript_aborts whisper_silent [0; 12; -7]%Z
              eq_refl eq_refl eq_refl eq_refl Hd) as (Hr & Hexit & _).
  split; [reflexivity|]. split; [exact Hd|].
  split; [exact Hr | exact Hexit].
Defined.

(** *** What [strip] keeps *)

Lemma lstrip_split (s : str) :
  exists pre, s = pre ++ lstrip s /\ whitespace_only pre.
Proof.
  induction s as [|c s (pre & Heq & Hpre)]; simpl.
  - exists []. split; [reflexivity | constructor].
  - destruct (isspace c) eqn:Hc.
    + exists (c :: pre). split; [simpl; congruence|].
      constructor; [exact Hc | exact Hpre].
    + exists []. split; [reflexivity | constructor].
Qed.

Lemma rstrip_split (s : str) :
  exists post, s = rstrip s ++ post /\ whitespace_only post.
Proof.
  unfold rstrip.
  destruct (lstrip_split (rev s)) as (pre & Heq & Hpre).
  exists (rev pre). split.
  - rewrite <- rev_app_distr, <- Heq, rev_involutive. reflexivity.
  - apply List.Forall_rev, Hpre.
Qed.

Lemma last_rev_cons (c : N) (l : list N) : last (rev (c :: l)) = Some c.
Proof. simpl. apply last_snoc. Qed.

Lemma strip_trimmed (s : str) : trimmed (strip s).
Proof.
  unfold strip.
  pose proof (lstrip_head s) as Hhead.
  destruct (rstrip_split (lstrip s)) as (post & Heq & _).
  unfold trimmed.
  destruct (rstrip (lstrip s)) as [|c r] eqn:Hr; [exact I|].
  split.
  - rewrite Heq in Hhead. exact Hhead.
  - unfold rstrip in Hr.
    pose proof (lstrip_head (rev (lstrip s))) as Hlast.
    destruct (lstrip (rev (lstrip s))) as [|c' r'] eqn:Hl.
    + discriminate Hr.
    + rewrite <- Hr, last_rev_cons. exact Hlast.
Qed.

Lemma strip_split (s : str) :
  exists pre post,
    s = pre ++ strip s ++ post /\ whitespace_only pre /\ whitespace_only post.
Proof.
  destruct (lstrip_split s) as (pre & Hs & Hpre).
  destruct (rstrip_split (lstrip s)) as (post & Hl & Hpost).
  exists pre, post. unfold strip. rewrite <- Hl. auto.
Qed.

(** X7. The text [transcribe_audio_local] returns is the text of the
    companion file as text mode reads it (its line ends translated to line
    feeds) without a leading and a trailing run of white space, and nothing
    else is taken away: the result is empty or begins and ends with a
    character that is not white space. *)
Theorem transcription_is_trimmed (w : World) (p text : str) (s : State) :
  nul_free p = true ->
  whisper_returncode w = 0%Z ->
  whisper_txt w = Some text ->
  exists q pre post,
    fst (transcribe_audio_local w p s) = Ok q
    /\ universal_newlines text = pre ++ q ++ post
    /\ whitespace_only pre /\ whitespace_only post
    /\ trimmed q.
Proof.
  intros Hp Hrc Htxt.
  destruct (strip_split (universal_newlines text))
    as (pre & post & Heq & Hpre & Hpost).
  exists (strip (universal_newlines text)), pre, post.
  rewrite (transcribe_audio_local_eq w p s Hp), Hrc. cbn [negb Z.eqb].
  unfold whisper_effect. rewrite Htxt, lookup_insert_eq. cbn [fst].
  repeat split; auto. apply strip_trimmed.
Qed.

Lemma transcription_is_trimmed_witness :
  nul_free (py "/tmp/a.wav") = true
  /\ whisper_txt whisper_crlf = Some (py "what" ++ [13; 10] ++ py "now")
  /\ exists q pre post,
       fst (transcribe_audio_local whisper_crlf (py "/tmp/a.wav")
              (mkState ∅ []))
       = Ok q
       /\ py "what" ++ [10] ++ py "now" = pre ++ q ++ post
       /\ trimmed q.
Proof.
  split; [reflexivity|]. split; [reflexivity|].
  destruct (transcription_is_trimmed whisper_crlf (py "/tmp/a.wav")
              (py "what" ++ [13; 10] ++ py "now") (mkState ∅ [])
              eq_refl eq_refl eq_refl)
    as (q & pre & post & Hq & Heq & _ & _ & Ht).
  exists q, pre, post. auto.
Defined.

(** X8. The capture stage is entered exactly when the transcription holds a
    character that is not white space: screencapture is then run once, and
    otherwise not at all. *)
Theorem capture_iff_speech (w : World) (recording : list Z) (text : str) :
  truthy_opt (getenv_OPENAI_API_KEY w) = true ->
  sd_rec w = inr recording ->
  whisper_returncode w = 0%Z ->
  whisper_txt w = Some text ->
  (calls is_screencapture (trace (snd (run w))) = 1%nat
   <-> ~ whitespace_only text)
  /\ (calls is_screencapture (trace (snd (run w))) = 0%nat
      <-> whitespace_only text).
Proof.
  intros Hkey Hrec Hrc Htxt.
  assert (Hcalls : calls is_screencapture (trace (snd (run w)))
                   = if truthy (strip text) then 1%nat else 0%nat).
  { rewrite run_eq, Hkey, main_eq. cbn zeta.
    destruct (truthy (strip text)) eqn:Hq.
    - rewrite (stages_understood w _ _ recording text (audio_path_nul_free w) Hrec Hrc Htxt Hq).
      cbn zeta.
      destruct (screencapture_png w) as [img|]; [|reflexivity].
      destruct (image_to_string w img); [reflexivity|].
      unfold answering_events. destruct (completion w); reflexivity.
    - rewrite (stages_transcribed w _ _ recording text
                 (audio_path_nul_free w) Hrec Hrc Htxt).
      cbn zeta. rewrite truthy_strip_universal_newlines, Hq. reflexivity. }
  rewrite Hcalls. pose proof (truthy_strip_false text) as Hws.
  destruct (truthy (strip text)); split; split; intros H;
    try reflexivity; try discriminate H.
  - intros Hw. apply Hws in Hw. discriminate Hw.
  - apply Hws in H. discriminate H.
  - exfalso. apply H, Hws. reflexivity.
  - apply Hws. reflexivity.
Qed.

Lemma capture_iff_speech_witness :
  whisper_txt scenario_B = Some [32; 10]
  /\ calls is_screencapture (trace (snd (run scenario_B))) = 0%nat.
Proof.
  split; [reflexivity|].
  apply (proj2 (capture_iff_speech scenario_B [0; 12; -7]%Z [32; 10]
                  eq_refl eq_refl eq_refl eq_refl)).
  repeat constructor.
Defined.

(** X9. On the path where no speech is recognised nothing is left behind:
    when the names of the audio file and of its companion were free at the
    start, the disk at exit is the disk at the start. *)
Theorem no_speech_restores_disk (w : World) (recording : list Z) (text : str) :
  truthy_opt (getenv_OPENAI_API_KEY w) = true ->
  sd_rec w = inr recording ->
  whisper_returncode w = 0%Z ->
  whisper_txt w = Some text ->
  whitespace_only text ->
  disk w !! audio_path w = None ->
  disk w !! companion_path w = None ->
  fs (snd (run w)) = disk w.
Proof.
  intros Hkey Hrec Hrc Htxt Hws Ha Hc.
  rewrite run_eq, Hkey, main_eq. cbn zeta.
  rewrite (stages_transcribed w _ _ recording text (audio_path_nul_free w)
             Hrec Hrc Htxt).
  cbn zeta.
  rewrite (strip_whitespace_only _
             (proj2 (whitespace_only_universal_newlines text) Hws)).
  cbn [negb truthy snd fs transcribed].
  unfold audio_path, companion_path in *.
  rewrite delete_insert_eq, insert_insert_eq.
  rewrite delete_insert_ne by (intros H; exact (path_txt_ne _ H)).
  rewrite (delete_id _ _ Hc). apply delete_insert_id, Ha.
Qed.

Lemma no_speech_restores_disk_witness :
  disk scenario_B !! audio_path scenario_B = None
  /\ disk scenario_B !! companion_path scenario_B = None
  /\ fs (snd (run scenario_B)) = ∅.
Proof.
  assert (Ha : disk scenario_B !! audio_path scenario_B = None)
    by (vm_compute; reflexivity).
  assert (Hc : disk scenario_B !! companion_path scenario_B = None)
    by (vm_compute; reflexivity).
  assert (Hws : whitespace_only [32; 10]) by (repeat constructor).
  split; [exact Ha|]. split; [exact Hc|].
  exact (no_speech_restores_disk scenario_B [0; 12; -7]%Z [32; 10]
           eq_refl eq_refl eq_refl eq_refl Hws Ha Hc).
Defined.

(** *** The answer *)

(** A run in which every stage before the query succeeds ends with the call
    of the notification of the answer. *)
Lemma run_answered (w : World) (recording : list Z) (text : str)
    (img : image) (screen_text : str) :
  truthy_opt (getenv_OPENAI_API_KEY w) = true ->
  sd_rec w = inr recording ->
  whisper_returncode w = 0%Z ->
  whisper_txt w = Some text ->
  truthy (strip text) = true ->
  screencapture_png w = Some img ->
  image_to_string w img = inr screen_text ->
  fst (run w) = shown (ai_answer_of (completion w))
  /\ last (trace (snd (run w)))
     = Some (notification (py "Here's your answer!")
               (replace_char 34 39 (ai_answer_of (completion w)))).
Proof.
  intros Hkey Hrec Hrc Htxt Hq Hpng Hocr.
  rewrite run_eq, Hkey, main_eq. cbn zeta.
  rewrite (stages_understood w _ _ recording text (audio_path_nul_free w)
             Hrec Hrc Htxt Hq).
  cbn zeta. rewrite Hpng, Hocr. unfold answering_events.
  destruct (completion w); split; reflexivity.
Qed.

(** X10. A response without any choice, or whose first message has no
    content, does not make [get_ai_assistance] raise: the failed access is
    absorbed like an error of the API, and the answer is the text "An error
    occurred while contacting the AI: " followed by the message of the
    exception; the files are left as they are. *)
Theorem malformed_response_absorbed (w : World) :
  (chat_completions_create w = inr []
   \/ exists rest, chat_completions_create w = inr (None :: rest)) ->
  exists message,
    message <> []
    /\ forall screen_text question s,
         fst (get_ai_assistance w screen_text question s)
         = Ok (error_answer message)
         /\ fs (snd (get_ai_assistance w screen_text question s)) = fs s
         /\ calls is_query (trace (snd (get_ai_assistance w screen_text question s)))
            = S (calls is_query (trace s)).
Proof.
  intros Hresp.
  assert (Hc : exists message, message <> [] /\ completion w = inl message).
  { unfold completion. destruct Hresp as [-> | (rest & ->)].
    - exists (py "list index out of range"). split; [discriminate | reflexivity].
    - exists (py "'NoneType' object has no attribute 'strip'").
      split; [discriminate | reflexivity]. }
  destruct Hc as (message & Hne & Hc).
  exists message. split; [exact Hne|].
  intros screen_text question s.
  rewrite get_ai_assistance_eq, Hc. cbn [fst snd fs trace ai_answer_of].
  repeat split.
  unfold calls. rewrite !List.filter_app, !length_app. cbn. lia.
Qed.

Lemma malformed_response_absorbed_witness :
  chat_completions_create no_choice = inr []
  /\ exists message,
       message <> []
       /\ fst (get_ai_assistance no_choice (py "screen") (py "why")
                 (mkState ∅ []))
          = Ok (error_answer message).
Proof.
  split; [reflexivity|].
  destruct (malformed_response_absorbed no_choice (or_introl eq_refl))
    as (message & Hne & H).
  exists message. split; [exact Hne|].
  exact (proj1 (H (py "screen") (py "why") (mkState ∅ []))).
Defined.

(** X11. When the content the API returns holds white space only, the
    answer is the empty string: the run still ends normally, and its final
    notification has an empty body. *)
Theorem blank_answer_shown_empty (w : World) (recording : list Z)
    (text : str) (img : image) (screen_text content : str)
    (rest : list (option str)) :
  truthy_opt (getenv_OPENAI_API_KEY w) = true ->
  sd_rec w = inr recording ->
  whisper_returncode w = 0%Z ->
  whisper_txt w = Some text ->
  truthy (strip text) = true ->
  screencapture_png w = Some img ->
  image_to_string w img = inr screen_text ->
  chat_completions_create w = inr (Some content :: rest) ->
  whitespace_only content ->
  exit_status (fst (run w)) = 0%Z
  /\ last (trace (snd (run w)))
     = Some (notification (py "Here's your answer!") []).
Proof.
  intros Hkey Hrec Hrc Htxt Hq Hpng Hocr Hchat Hws.
  destruct (run_answered w recording text img screen_text
              Hkey Hrec Hrc Htxt Hq Hpng Hocr) as (Hok & Hlast).
  rewrite Hok, Hlast. unfold completion. rewrite Hchat.
  cbn [ai_answer_of]. rewrite (strip_whitespace_only content Hws).
  split; reflexivity.
Qed.

Lemma blank_answer_shown_empty_witness :
  chat_completions_create blank_answer = inr [Some [32; 32; 10]]
  /\ whitespace_only [32; 32; 10]
  /\ last (trace (snd (run blank_answer)))
     = Some (notification (py "Here's your answer!") []).
Proof.
  assert (Hws : whitespace_only [32; 32; 10]) by (repeat constructor).
  split; [reflexivity|]. split; [exact Hws|].
  apply (blank_answer_shown_empty blank_answer [0; 12; -7]%Z
           (py " what does this error mean" ++ newline) [137; 80; 78; 71]
           (py "NullPointerException at line 42" ++ [10; 12])
           [32; 32; 10] []);
    solve [reflexivity | exact Hws].
Defined.



(** The screenshot is still there after a run in which the OCR call fails. *)
Lemma screenshot_never_removed_witness :
  truthy (strip (py " what does this error mean" ++ newline)) = true
  /\ exit_status (fst (run ocr_fails)) = 1%Z
  /\ fs (snd (run ocr_fails)) !! py "/tmp/tmpz81.png"
     = Some (Picture [137; 80; 78; 71]).
Proof.
  split; [reflexivity|]. split; [vm_compute; reflexivity|].
  exact (screenshot_never_removed ocr_fails [0; 12; -7]%Z
           (py " what does this error mean" ++ newline)
           eq_refl eq_refl eq_refl eq_refl eq_refl).
Defined.
